(** * cosmogrb: response-generator registry and Universe orchestration

    A shallow embedding of

    - [cosmogrb/instruments/gbm/response_generator.py]
      ([SingletonMeta], [ResponseGenerator]) and
    - [cosmogrb/universe/universe.py]
      ([Universe], [ParameterServer], [GRBWrapper]).

    Python objects are records, dictionaries are [gmap]s, methods are
    computations in a state-and-exception monad over the object they
    mutate.  Everything that lives outside the two files (the
    [gbm_drm_gen] response model, [popsynth], [pathlib]'s file-system
    queries, the GRB engine, the dask client, the Survey writer) is an
    interface: a type class whose operations act on an opaque external
    state, and whose calls are recorded in a log by the caller. *)

From Stdlib Require Import QArith.
From Stdlib Require Import Ascii String.
From stdpp Require Import gmap strings list fin_maps pretty.

Open Scope string_scope.

(** ** Python values, exceptions and the method monad *)

(** Python floats are only carried around by this code, never computed
    with; they are modelled as rationals. *)
Definition float : Type := Q.

Inductive Value : Type :=
| VStr (s : string)
| VFloat (x : float).

(** The exceptions the two files can raise or let through.  An [assert]
    without a message carries the empty string. *)
Inductive Exception : Type :=
| AssertionError (msg : string)
| RuntimeError (msg : string)
| AttributeError (attr : string)
| KeyError (key : string)
| IndexError
| TypeError
| ExternalError (what : string).

Definition Py (S A : Type) : Type := S -> (Exception + A) * S.

Definition ret {S A} (a : A) : Py S A := fun s => (inr a, s).

Definition raise {S A} (e : Exception) : Py S A := fun s => (inl e, s).

Definition bind {S A B} (c : Py S A) (k : A -> Py S B) : Py S B :=
  fun s =>
    match c s with
    | (inl e, s') => (inl e, s')
    | (inr a, s') => k a s'
    end.

Definition get {S} : Py S S := fun s => (inr s, s).

Definition put {S} (s : S) : Py S unit := fun _ => (inr tt, s).

Definition modify {S} (f : S -> S) : Py S unit := fun s => (inr tt, f s).

(** [assert cond, msg] *)
Definition py_assert {S} (cond : bool) (msg : string) : Py S unit :=
  if cond then ret tt else raise (AssertionError msg).

Declare Scope py_scope.
Delimit Scope py_scope with py.

Notation "'let*' x ':=' c 'in' k" := (bind c (fun x => k))
  (at level 10, x name, c at level 100, k at level 200) : py_scope.
Notation "c1 '>>' c2" := (bind c1 (fun _ => c2))
  (at level 100, c2 at level 200, right associativity) : py_scope.

Open Scope py_scope.
Open Scope list_scope.

(** A [for] loop over a list whose body may raise: the first exception
    ends the loop. *)
Fixpoint for_each {S A} (l : list A) (body : A -> Py S unit) : Py S unit :=
  match l with
  | [] => ret tt
  | x :: l' => body x >> for_each l' body
  end.

Lemma bind_ret_l {S A B} (a : A) (k : A -> Py S B) s :
  bind (ret a) k s = k a s.
Proof. reflexivity. Qed.

Lemma bind_inr {S A B} (c : Py S A) (k : A -> Py S B) s a s' :
  c s = (inr a, s') -> bind c k s = k a s'.
Proof. unfold bind. intros ->. reflexivity. Qed.

Lemma bind_inl {S A B} (c : Py S A) (k : A -> Py S B) s e s' :
  c s = (inl e, s') -> bind c k s = (inl e, s').
Proof. unfold bind. intros ->. reflexivity. Qed.

Lemma for_each_app {S A} (l1 l2 : list A) (body : A -> Py S unit) s :
  for_each (l1 ++ l2) body s =
  (for_each l1 body >> for_each l2 body) s.
Proof.
  revert s. induction l1 as [|x l1 IH]; intros s; simpl.
  - reflexivity.
  - unfold bind in *. destruct (body x s) as [[e|[]] s1]; [reflexivity|].
    apply IH.
Qed.

(** ** [pathlib] on a POSIX system

    A path is its root ([""], ["/"] or ["//"]) and its components;
    parsing drops empty and ["."] components, as [PurePosixPath]
    does. *)
Module pathlib.

Record Path : Type := { root : string; parts : list string }.

(** [s.split("/")] *)
Fixpoint split_slash (s : string) : list string :=
  match s with
  | EmptyString => [""]
  | String c s' =>
      if Ascii.eqb c "/"%char then "" :: split_slash s'
      else match split_slash s' with
           | [] => [String c ""]
           | w :: ws => String c w :: ws
           end
  end.

Fixpoint leading_slashes (s : string) : nat :=
  match s with
  | String c s' => if Ascii.eqb c "/"%char then S (leading_slashes s') else 0
  | EmptyString => 0
  end.

(** POSIX keeps exactly two leading slashes apart from one or many. *)
Definition splitroot (s : string) : string :=
  match leading_slashes s with
  | 0 => ""
  | 2 => "//"
  | _ => "/"
  end.

Definition keep_part (x : string) : bool :=
  negb (String.eqb x "") && negb (String.eqb x ".").

(** [Path(s)] *)
Definition of_string (s : string) : Path :=
  {| root := splitroot s;
     parts := List.filter keep_part (split_slash s) |}.

Definition is_absolute (p : Path) : bool := negb (String.eqb (root p) "").

(** [p / s]: an absolute right operand replaces the left one. *)
Definition joinpath (p : Path) (s : string) : Path :=
  let q := of_string s in
  if is_absolute q then q
  else {| root := root p; parts := parts p ++ parts q |}.

(** [p.absolute()], with [cwd] the string [os.getcwd()] returns. *)
Definition absolute (cwd : string) (p : Path) : Path :=
  if is_absolute p then p
  else {| root := root (of_string cwd);
          parts := parts (of_string cwd) ++ parts p |}.

End pathlib.

Abbreviation Path := pathlib.Path.
Infix "</>" := pathlib.joinpath (at level 40, left associativity).

(** ** [numpy] two-dimensional arrays, as far as [.T] needs them *)
Record ndarray : Type := {
  nrows : nat;
  ncols : nat;
  entry : nat -> nat -> float
}.

(** [a.T]: the same data seen with its two axes exchanged. *)
Definition T (a : ndarray) : ndarray :=
  {| nrows := ncols a; ncols := nrows a; entry := fun i j => entry a j i |}.

(** ** [response_generator.py] *)

(** The interface of [gbm_drm_gen.DRMGenTTE]: its constructor, the two
    mutators and the attributes the registry reads. *)
Class DRMGen (drm : Type) : Type := {
  DRMGenTTE :
    forall (det_name : string) (time : float) (T0 : float)
           (cspecfile : string) (poshist : string) (mat_type : Z)
           (occult : bool), drm;
  drm_set_time : float -> drm -> drm;
  drm_set_location : float -> float -> drm -> drm;
  drm_matrix : drm -> ndarray;
  drm_monte_carlo_energies : drm -> list float;
  drm_ebounds : drm -> list float
}.

(** [_det_translate], in insertion order. *)
Definition _det_translate : list (string * string) :=
  [ ("n0", "NAI_00"); ("n1", "NAI_01"); ("n2", "NAI_02"); ("n3", "NAI_03");
    ("n4", "NAI_04"); ("n5", "NAI_05"); ("n6", "NAI_06"); ("n7", "NAI_07");
    ("n8", "NAI_08"); ("n9", "NAI_09"); ("na", "NAI_10"); ("nb", "NAI_11");
    ("b0", "BGO_00"); ("b1", "BGO_01") ].

(** [d[k]] on a dictionary kept as an association list. *)
Fixpoint assoc_lookup {V} (k : string) (d : list (string * V)) : option V :=
  match d with
  | [] => None
  | (k', v) :: d' => if String.eqb k k' then Some v else assoc_lookup k d'
  end.

Definition getitem {S V} (k : string) (d : list (string * V)) : Py S V :=
  match assoc_lookup k d with
  | Some v => ret v
  | None => raise (KeyError k)
  end.

(** [os.path.join(a, b)] for a relative [b] and an [a] without a
    trailing slash, the only use in this file. *)
Definition os_path_join (a b : string) : string := a +:+ "/" +:+ b.

Section ResponseGenerator.
Context {drm : Type} {D : DRMGen drm}.

(** [gbm_orbit.T0] and [get_path_of_data_file], defined elsewhere in
    the package. *)
Variable gbm_orbit_T0 : float.
Variable get_path_of_data_file : string -> string.

Record ResponseGenerator : Type := {
  _detectors : gmap string drm;
  _mc_energies : gmap string (list float);
  _ebounds : gmap string (list float)
}.

Definition Method (A : Type) : Type := Py ResponseGenerator A.

(** One turn of the loop of [ResponseGenerator.__init__]. *)
Definition init_detector (kv : string * string) : Method unit :=
  let k := kv.1 in
  let T0 := gbm_orbit_T0 in
  let* det_name := getitem k _det_translate in
  let drm_gen :=
    DRMGenTTE det_name 1%Q T0
      (get_path_of_data_file (os_path_join "gbm_cspec" (k +:+ ".pha")))
      (get_path_of_data_file "posthist.fit")
      2%Z false in
  modify (fun self =>
    {| _detectors := <[k := drm_gen]> (_detectors self);
       _mc_energies :=
         <[k := drm_monte_carlo_energies drm_gen]> (_mc_energies self);
       _ebounds := <[k := drm_ebounds drm_gen]> (_ebounds self) |}).

(** The three empty dictionaries [__init__] starts from. *)
Definition blank : ResponseGenerator :=
  {| _detectors := ∅; _mc_energies := ∅; _ebounds := ∅ |}.

(** [ResponseGenerator.__init__] *)
Definition ResponseGenerator_init : Method unit :=
  put blank >>
  for_each _det_translate init_detector.

(** [det_name in self._detectors] *)
Definition has_detector (det_name : string) (self : ResponseGenerator)
  : bool :=
  bool_decide (is_Some (_detectors self !! det_name)).

(** [self._detectors[det_name].m(...)] for a mutator [m]: the object
    the dictionary holds is updated in place. *)
Definition call_detector (det_name : string) (m : drm -> drm)
  : Method unit :=
  let* self := get in
  match _detectors self !! det_name with
  | None => raise (KeyError det_name)
  | Some d =>
      put {| _detectors := <[det_name := m d]> (_detectors self);
             _mc_energies := _mc_energies self;
             _ebounds := _ebounds self |}
  end.

(** [self._detectors[det_name].matrix.T] *)
Definition detector_matrix_T (det_name : string) : Method ndarray :=
  let* self := get in
  match _detectors self !! det_name with
  | None => raise (KeyError det_name)
  | Some d => ret (T (drm_matrix d))
  end.

Definition generate_response (ra dec time : float) (det_name : string)
  : Method ndarray :=
  let* self := get in
  py_assert (has_detector det_name self) "" >>
  call_detector det_name (drm_set_time time) >>
  let* self := get in
  py_assert (has_detector det_name self) "" >>
  call_detector det_name (drm_set_location ra dec) >>
  detector_matrix_T det_name.

Definition set_time (time : float) (det_name : string) : Method unit :=
  let* self := get in
  py_assert (has_detector det_name self) "" >>
  call_detector det_name (drm_set_time time).

Definition set_location (ra dec : float) (det_name : string)
  : Method ndarray :=
  let* self := get in
  py_assert (has_detector det_name self) "" >>
  call_detector det_name (drm_set_location ra dec) >>
  detector_matrix_T det_name.

(** *** [SingletonMeta]

    The process keeps every [ResponseGenerator] object ever
    allocated, by address, and the class attribute [_inst], which is
    absent ([None]) until the first call of the class. *)
Record Process : Type := {
  heap : list ResponseGenerator;
  cls_inst : option nat
}.

(** [super(SingletonMeta, cls).__call__()]: allocate an object, run
    [__init__] on it.  An exception leaves the object unreferenced. *)
Definition type_call : Py Process nat :=
  fun p =>
    match ResponseGenerator_init blank with
    | (inl e, _) => (inl e, p)
    | (inr _, obj) =>
        (inr (length (heap p)),
         {| heap := heap p ++ [obj]; cls_inst := cls_inst p |})
    end.

(** [SingletonMeta.__call__] *)
Definition SingletonMeta_call : Py Process nat :=
  let* p := get in
  match cls_inst p with
  | None =>
      let* obj := type_call in
      modify (fun p => {| heap := heap p; cls_inst := Some obj |}) >>
      let* p := get in
      match cls_inst p with
      | Some inst => ret inst
      | None => raise (AttributeError "_inst")
      end
  | Some inst => ret inst
  end.

(** A process in which nothing has been imported yet. *)
Definition fresh_process : Process := {| heap := []; cls_inst := None |}.

(** Importing the module runs its last line,
    [gbm_response_generator = ResponseGenerator()]. *)
Definition import_module : (Exception + nat) * Process :=
  SingletonMeta_call fresh_process.

(** A method called on the object at address [r]. *)
Definition on_instance {A} (r : nat) (m : Method A) : Py Process A :=
  fun p =>
    match heap p !! r with
    | None => (inl (AttributeError "self"), p)
    | Some g =>
        let '(res, g') := m g in
        (res, {| heap := <[r := g']> (heap p); cls_inst := cls_inst p |})
    end.

(** What client code does with the registry: ask the class for an
    instance, or call a method on the object at some address. *)
Inductive Op : Type :=
| Request
| GenerateResponse (r : nat) (ra dec time : float) (det_name : string)
| SetTime (r : nat) (time : float) (det_name : string)
| SetLocation (r : nat) (ra dec : float) (det_name : string).

Definition exec (op : Op) (p : Process) : Process :=
  match op with
  | Request => (SingletonMeta_call p).2
  | GenerateResponse r ra dec time det_name =>
      (on_instance r (generate_response ra dec time det_name) p).2
  | SetTime r time det_name =>
      (on_instance r (set_time time det_name) p).2
  | SetLocation r ra dec det_name =>
      (on_instance r (set_location ra dec det_name) p).2
  end.

(** The process after the import and a sequence of operations. *)
Definition run (ops : list Op) : Process :=
  foldl (fun p op => exec op p) import_module.2 ops.

End ResponseGenerator.

(** ** [universe.py] *)

(** What this file reads of a [popsynth.Population].  [duration] is an
    auxiliary quantity: a population file may have been written without
    it, and then the attribute does not exist. *)
Record Population : Type := {
  pop_ra : list float;
  pop_dec : list float;
  pop_distances : list float;
  pop_duration : option (list float);
  pop_selection : list bool
}.

Record ParameterServer : Type := {
  _parameters : gmap string Value;
  _file_path : option Path
}.

(** [ParameterServer.__init__], called with the dictionary [kw]
    unpacked into keyword arguments: the six named parameters are
    required, the rest lands in [kwargs]. *)
Definition ParameterServer_init {S} (kw : gmap string Value)
  : Py S ParameterServer :=
  match kw !! "name", kw !! "ra", kw !! "dec",
        kw !! "z", kw !! "duration", kw !! "T0" with
  | Some name, Some ra, Some dec, Some z, Some duration, Some T0 =>
      let kwargs :=
        delete "T0" (delete "duration" (delete "z" (delete "dec"
          (delete "ra" (delete "name" kw))))) in
      let parameters : gmap string Value :=
        <["T0" := T0]> (<["duration" := duration]> (<["z" := z]>
          (<["dec" := dec]> (<["ra" := ra]> (<["name" := name]> ∅))))) in
      ret {| _parameters := map_fold (fun k v p => <[k := v]> p)
                                     parameters kwargs;
             _file_path := None |}
  | _, _, _, _, _, _ => raise TypeError
  end.

Definition set_file_path (file_path : Path) (self : ParameterServer)
  : ParameterServer :=
  {| _parameters := _parameters self; _file_path := Some file_path |}.

(** Objects owned by the collaborators (a GRB, a dask client, a list of
    futures, a Survey) are known to this code by reference only. *)
Definition ref : Type := nat.

(** How [GRBWrapper] passes [client] to [grb.go]: explicitly as [None],
    or not at all. *)
Inductive ClientArg : Type := ClientNone | ClientOmitted.

(** Calls that leave the two files, in the order they are made. *)
Inductive Event : Type :=
| Call_from_file (population_file : string)
| Call_parameter_server_type (kw : gmap string Value)
| Call_exists (file_name : Path)
| Call_grb_wrapper (parameter_server : ParameterServer) (serial : bool)
| Call_scatter (client : ref) (data : list ParameterServer)
| Call_map (client : ref) (futures : ref)
| Call_progress (futures : ref)
| Call_gather (client : ref) (futures : ref)
| Call_Survey (grb_save_files : list Path) (population_file : Path)
| Call_Survey_write (survey : ref) (file_name : string)
| Call_grb_type (kw : gmap string Value)
| Call_grb_go (grb : ref) (client : ClientArg) (serial : bool)
| Call_grb_save (grb : ref) (file_path : option Path) (clean_up : bool).

Record World (Ext : Type) : Type := {
  ext : Ext;
  log : list Event
}.
Arguments ext {Ext} _.
Arguments log {Ext} _.

(** The operating system, [popsynth], dask and the Survey writer. *)
Class Collaborators (Ext : Type) : Type := {
  os_getcwd : Ext -> string;
  Path_exists : Path -> Ext -> bool;
  (** [popsynth.Population.from_file(f).to_sub_population()] *)
  Population_from_file : string -> Py Ext Population;
  Client_scatter : ref -> list ParameterServer -> Py Ext ref;
  Client_map : ref -> (ParameterServer -> Py Ext unit) -> ref -> Py Ext ref;
  progress : ref -> Py Ext unit;
  Client_gather : ref -> ref -> Py Ext ref;
  Survey : list Path -> Path -> Py Ext ref;
  Survey_write : ref -> string -> Py Ext unit
}.

(** The abstract method [Universe._grb_wrapper]; it works on the
    outside world only. *)
Class UniverseSubclass (Ext : Type) : Type := {
  _grb_wrapper : ParameterServer -> bool -> Py Ext unit
}.

(** The abstract method [GRBWrapper._grb_type] and the two methods of
    the GRB it returns. *)
Class GRBWrapperSubclass (Ext : Type) : Type := {
  _grb_type : gmap string Value -> Py Ext ref;
  GRB_go : ref -> ClientArg -> bool -> Py Ext unit;
  GRB_save : ref -> option Path -> bool -> Py Ext unit
}.

Section Effects.
Context {Ext : Type}.

(** A call to a collaborator: it is logged, then it acts on the outside
    world; its exception, if any, propagates. *)
Definition external {A} (ev : Event) (op : Py Ext A) : Py (World Ext) A :=
  fun w =>
    let '(r, x) := op (ext w) in
    (r, {| ext := x; log := log w ++ [ev] |}).

(** Methods run on an object (or a frame of locals) of type [L] next to
    the world. *)
Definition in_world {L A} (c : Py (World Ext) A) : Py (L * World Ext) A :=
  fun s => let '(r, w) := c s.2 in (r, (s.1, w)).

Definition get_self {L} : Py (L * World Ext) L := fun s => (inr s.1, s).

Definition set_self {L} (f : L -> L) : Py (L * World Ext) unit :=
  fun s => (inr tt, (f s.1, s.2)).

Definition get_ext {L} : Py (L * World Ext) Ext :=
  fun s => (inr (ext s.2), s).

End Effects.

(** [l[i]] for [i] in range, [IndexError] otherwise. *)
Definition index {S A} (l : list A) (i : nat) : Py S A :=
  match l !! i with
  | Some x => ret x
  | None => raise IndexError
  end.

Record Universe : Type := {
  _population_file : Path;
  _is_processed : bool;
  _population : Population;
  _grb_base_name : string;
  _save_path : Path;
  _n_grbs : nat;
  _name : list string;
  _local_parameters : list (string * list Value);
  _parameter_servers : list ParameterServer;
  _ra : list float;
  _dec : list float;
  _z : list float;
  _duration : list float
}.

(** [sum(selection)] on a boolean array *)
Definition sum_bool (l : list bool) : nat :=
  foldr (fun (b : bool) n => (if b then 1 else 0) + n) 0 l.

(** [f"{grb_base_name}_{i}"] *)
Definition grb_name (grb_base_name : string) (i : nat) : string :=
  grb_base_name +:+ "_" +:+ pretty i.

Definition empty_population : Population :=
  {| pop_ra := []; pop_dec := []; pop_distances := [];
     pop_duration := None; pop_selection := [] |}.

(** The object before [__init__] has assigned anything.  No method
    reads an attribute that [__init__] has not assigned before. *)
Definition blank_universe : Universe :=
  {| _population_file := pathlib.of_string "";
     _is_processed := false;
     _population := empty_population;
     _grb_base_name := "";
     _save_path := pathlib.of_string "";
     _n_grbs := 0;
     _name := [];
     _local_parameters := [];
     _parameter_servers := [];
     _ra := []; _dec := []; _z := []; _duration := [] |}.

Definition set_sky_coord (ra dec : list float) (u : Universe) : Universe :=
  {| _population_file := _population_file u;
     _is_processed := _is_processed u;
     _population := _population u;
     _grb_base_name := _grb_base_name u;
     _save_path := _save_path u;
     _n_grbs := _n_grbs u;
     _name := _name u;
     _local_parameters := _local_parameters u;
     _parameter_servers := _parameter_servers u;
     _ra := ra; _dec := dec; _z := _z u; _duration := _duration u |}.

Definition set_z (z : list float) (u : Universe) : Universe :=
  {| _population_file := _population_file u;
     _is_processed := _is_processed u;
     _population := _population u;
     _grb_base_name := _grb_base_name u;
     _save_path := _save_path u;
     _n_grbs := _n_grbs u;
     _name := _name u;
     _local_parameters := _local_parameters u;
     _parameter_servers := _parameter_servers u;
     _ra := _ra u; _dec := _dec u; _z := z; _duration := _duration u |}.

Definition set_duration (d : list float) (u : Universe) : Universe :=
  {| _population_file := _population_file u;
     _is_processed := _is_processed u;
     _population := _population u;
     _grb_base_name := _grb_base_name u;
     _save_path := _save_path u;
     _n_grbs := _n_grbs u;
     _name := _name u;
     _local_parameters := _local_parameters u;
     _parameter_servers := _parameter_servers u;
     _ra := _ra u; _dec := _dec u; _z := _z u; _duration := d |}.

Definition set_parameter_servers (l : list ParameterServer) (u : Universe)
  : Universe :=
  {| _population_file := _population_file u;
     _is_processed := _is_processed u;
     _population := _population u;
     _grb_base_name := _grb_base_name u;
     _save_path := _save_path u;
     _n_grbs := _n_grbs u;
     _name := _name u;
     _local_parameters := _local_parameters u;
     _parameter_servers := l;
     _ra := _ra u; _dec := _dec u; _z := _z u; _duration := _duration u |}.

Definition set_is_processed (b : bool) (u : Universe) : Universe :=
  {| _population_file := _population_file u;
     _is_processed := b;
     _population := _population u;
     _grb_base_name := _grb_base_name u;
     _save_path := _save_path u;
     _n_grbs := _n_grbs u;
     _name := _name u;
     _local_parameters := _local_parameters u;
     _parameter_servers := _parameter_servers u;
     _ra := _ra u; _dec := _dec u; _z := _z u; _duration := _duration u |}.

Section Universe.
Context {Ext : Type} {C : Collaborators Ext} {U : UniverseSubclass Ext}.

Definition UMethod (A : Type) : Type := Py (Universe * World Ext) A.

Definition _get_sky_coord : UMethod unit :=
  let* self := get_self in
  set_self (set_sky_coord (pop_ra (_population self))
                          (pop_dec (_population self))).

Definition _get_redshift : UMethod unit :=
  let* self := get_self in
  set_self (set_z (pop_distances (_population self))).

(** The [try] around the attribute access turns its failure into a
    [RuntimeError]. *)
Definition _get_duration : UMethod unit :=
  let* self := get_self in
  match pop_duration (_population self) with
  | Some d => set_self (set_duration d)
  | None => raise (RuntimeError "The population must contain a duration value")
  end.

Definition _process_populations : UMethod unit :=
  _get_sky_coord >> _get_redshift >> _get_duration.

(** [for k, v in self._local_parameters.items(): param_dict[k] = v[i]] *)
Fixpoint add_local_parameters (i : nat) (items : list (string * list Value))
    (param_dict : gmap string Value) : UMethod (gmap string Value) :=
  match items with
  | [] => ret param_dict
  | (k, v) :: items' =>
      let* x := index v i in
      add_local_parameters i items' (<[k := x]> param_dict)
  end.

(** One turn of the loop of [_contstruct_parameter_servers]; it yields
    the local [param_server] as the turn leaves it.  The abstract
    [_parameter_server_type] is [ParameterServer], the class of this
    file that has [set_file_path]. *)
Definition construct_one (i : nat) : UMethod ParameterServer :=
  let* self := get_self in
  let param_dict : gmap string Value := ∅ in
  let* z := index (_z self) i in
  let param_dict := <["z" := VFloat z]> param_dict in
  let* ra := index (_ra self) i in
  let param_dict := <["ra" := VFloat ra]> param_dict in
  let* dec := index (_dec self) i in
  let param_dict := <["dec" := VFloat dec]> param_dict in
  let* name := index (_name self) i in
  let param_dict := <["name" := VStr name]> param_dict in
  let* duration := index (_duration self) i in
  let param_dict := <["duration" := VFloat duration]> param_dict in
  let param_dict := <["T0" := VFloat 0%Q]> param_dict in
  let* param_dict :=
    add_local_parameters i (_local_parameters self) param_dict in
  let* param_server :=
    in_world (external (Call_parameter_server_type param_dict)
                       (ParameterServer_init param_dict)) in
  let* name := index (_name self) i in
  let file_name := _save_path self </> (name +:+ "_store.h5") in
  let* x := get_ext in
  let* file_exists :=
    in_world (external (Call_exists file_name)
                       (ret (Path_exists file_name x))) in
  if file_exists : bool then
    ret param_server
  else
    let param_server := set_file_path file_name param_server in
    set_self (fun self =>
      set_parameter_servers (_parameter_servers self ++ [param_server]) self) >>
    ret param_server.

Definition _contstruct_parameter_servers : UMethod unit :=
  let* self := get_self in
  for_each (seq 0 (_n_grbs self)) (fun i => construct_one i >> ret tt).

(** [Universe.__init__] *)
Definition Universe_init (population_file grb_base_name save_path : string)
  : UMethod unit :=
  let* x := get_ext in
  let population_file_abs :=
    pathlib.absolute (os_getcwd x) (pathlib.of_string population_file) in
  let* population :=
    in_world (external (Call_from_file population_file)
                       (Population_from_file population_file)) in
  py_assert
    (Nat.eqb (sum_bool (pop_selection population))
             (length (pop_selection population)))
    "The population seems to have had a prior selection on it. This is not good" >>
  let n_grbs := length (pop_selection population) in
  set_self (fun _ =>
    {| _population_file := population_file_abs;
       _is_processed := false;
       _population := population;
       _grb_base_name := grb_base_name;
       _save_path := pathlib.of_string save_path;
       _n_grbs := n_grbs;
       _name := (fun i => grb_name grb_base_name i) <$> seq 0 n_grbs;
       _local_parameters := [];
       _parameter_servers := [];
       _ra := []; _dec := []; _z := []; _duration := [] |}) >>
  _process_populations >>
  _contstruct_parameter_servers.

(** [Universe(population_file, grb_base_name, save_path)] in the outside
    world [x], with an empty log. *)
Definition Universe_new (population_file grb_base_name save_path : string)
    (x : Ext) : (Exception + unit) * (Universe * World Ext) :=
  Universe_init population_file grb_base_name save_path
    (blank_universe, {| ext := x; log := [] |}).

(** One turn of the serial loop of [go]: the wrapper is run on the
    queued server at position [i]. *)
Definition serial_turn (i : nat) : UMethod unit :=
  let* self := get_self in
  let* parameter_server := index (_parameter_servers self) i in
  in_world (external (Call_grb_wrapper parameter_server true)
                     (_grb_wrapper parameter_server true)).

(** The serial branch of [go]. *)
Definition go_serial : UMethod unit :=
  let* self := get_self in
  for_each (seq 0 (length (_parameter_servers self))) serial_turn.

(** The distributed branch of [go].  The function handed to
    [client.map] is the bound method, called with its default
    [serial=False]. *)
Definition go_client (client : ref) : UMethod unit :=
  let* self := get_self in
  let* parameter_servers_future :=
    in_world (external (Call_scatter client (_parameter_servers self))
                (Client_scatter client (_parameter_servers self))) in
  let* futures :=
    in_world (external (Call_map client parameter_servers_future)
                (Client_map client (fun ps => _grb_wrapper ps false)
                            parameter_servers_future)) in
  in_world (external (Call_progress futures) (progress futures)) >>
  let* res :=
    in_world (external (Call_gather client futures)
                (Client_gather client futures)) in
  ret tt.

(** The batch of [go]: what runs before the flag is set. *)
Definition batch (client : option ref) : UMethod unit :=
  match client with
  | Some c => go_client c
  | None => go_serial
  end.

Definition go (client : option ref) : UMethod unit :=
  batch client >>
  set_self (set_is_processed true).

(** [f"{grb_base_name}_{i}_store.h5"] *)
Definition store_file_name (grb_base_name : string) (i : nat) : string :=
  grb_base_name +:+ "_" +:+ pretty i +:+ "_store.h5".

Definition save (file_name : string) : UMethod unit :=
  let* self := get_self in
  if _is_processed self then
    let* x := get_ext in
    let grb_save_files :=
      (fun i =>
         pathlib.absolute (os_getcwd x)
           (_save_path self </> store_file_name (_grb_base_name self) i))
      <$> seq 0 (_n_grbs self) in
    let* survey :=
      in_world (external (Call_Survey grb_save_files (_population_file self))
                  (Survey grb_save_files (_population_file self))) in
    in_world (external (Call_Survey_write survey file_name)
                (Survey_write survey file_name))
  else ret tt.

End Universe.

Section GRBWrapper.
Context {Ext : Type} {G : GRBWrapperSubclass Ext}.

(** How the mode flag reaches [grb.go]: [serial] itself in both
    branches, next to an explicit [client=None] when not serial. *)
Definition go_client_arg (serial : bool) : ClientArg :=
  if serial then ClientOmitted else ClientNone.

(** The frame of [GRBWrapper.__init__]: its one local, [grb], unbound
    before the constructor call and after [del]. *)
Definition Frame : Type := option ref.

Definition local_grb : Py (Frame * World Ext) ref :=
  let* frame := get_self in
  match frame with
  | Some grb => ret grb
  | None => raise (AttributeError "grb")
  end.

Definition GRBWrapper_init (parameter_server : ParameterServer)
    (serial : bool) : Py (Frame * World Ext) unit :=
  let* g :=
    in_world (external (Call_grb_type (_parameters parameter_server))
                (_grb_type (_parameters parameter_server))) in
  set_self (fun _ => Some g) >>
  (if negb serial then
     let* grb := local_grb in
     in_world (external (Call_grb_go grb ClientNone serial)
                 (GRB_go grb ClientNone serial))
   else
     let* grb := local_grb in
     in_world (external (Call_grb_go grb ClientOmitted serial)
                 (GRB_go grb ClientOmitted serial))) >>
  let* grb := local_grb in
  in_world (external
              (Call_grb_save grb (_file_path parameter_server) true)
              (GRB_save grb (_file_path parameter_server) true)) >>
  set_self (fun _ => None).

(** [GRBWrapper(parameter_server, serial)] in the outside world [x]. *)
Definition GRBWrapper_new (parameter_server : ParameterServer)
    (serial : bool) (x : Ext) : (Exception + unit) * (Frame * World Ext) :=
  GRBWrapper_init parameter_server serial (None, {| ext := x; log := [] |}).

End GRBWrapper.

(** ** What one turn of the construction loop computes

    The pure part of [construct_one] for a Universe without local
    parameters: the keyword dictionary of record [i], the file name it
    is checked against, and the server that is queued unless that file
    exists. *)
Definition record_param_dict (u : Universe) (i : nat)
  : option (gmap string Value) :=
  match _z u !! i, _ra u !! i, _dec u !! i, _name u !! i,
        _duration u !! i with
  | Some z, Some ra, Some dec, Some name, Some duration =>
      Some (<["T0" := VFloat 0%Q]> (<["duration" := VFloat duration]>
             (<["name" := VStr name]> (<["dec" := VFloat dec]>
               (<["ra" := VFloat ra]> (<["z" := VFloat z]> ∅))))))
  | _, _, _, _, _ => None
  end.

Definition record_file_name (u : Universe) (i : nat) : option Path :=
  match _name u !! i with
  | Some name => Some (_save_path u </> (name +:+ "_store.h5"))
  | None => None
  end.

Definition record_events (u : Universe) (i : nat) : list Event :=
  match record_param_dict u i, record_file_name u i with
  | Some kw, Some f => [Call_parameter_server_type kw; Call_exists f]
  | _, _ => []
  end.

Definition record_queued {Ext} {C : Collaborators Ext} (u : Universe)
    (x : Ext) (i : nat) : option ParameterServer :=
  match record_param_dict u i, record_file_name u i with
  | Some kw, Some f =>
      if Path_exists f x then None
      else Some {| _parameters := kw; _file_path := Some f |}
  | _, _ => None
  end.

(** The messages of the two construction-time errors. *)
Definition selection_message : string :=
  "The population seems to have had a prior selection on it. This is not good".

Definition duration_message : string :=
  "The population must contain a duration value".

(** The file an existence check in the log was about. *)
Definition exists_checked (ev : Event) : option Path :=
  match ev with
  | Call_exists f => Some f
  | _ => None
  end.

(** The keywords a server construction in the log was given. *)
Definition server_built (ev : Event) : option (gmap string Value) :=
  match ev with
  | Call_parameter_server_type kw => Some kw
  | _ => None
  end.

(** A method is quiet when it leaves the Universe as it is and logs
    neither an existence check nor a server construction. *)
Definition quiet {Ext A} (c : Py (Universe * World Ext) A) : Prop :=
  forall u w,
    (c (u, w)).2.1 = u /\
    exists evs,
      log (c (u, w)).2.2 = log w ++ evs /\
      omap exists_checked evs = [] /\
      omap server_built evs = [].

(** A population as [popsynth] hands it over after the projection to
    selected records: every column has one entry per record, the
    duration column is there, and every record is selected. *)
Definition well_formed (pop : Population) : Prop :=
  let n := length (pop_selection pop) in
  length (pop_ra pop) = n /\
  length (pop_dec pop) = n /\
  length (pop_distances pop) = n /\
  (exists d, pop_duration pop = Some d /\ length d = n) /\
  Forall (fun b => b = true) (pop_selection pop).

(** ** What the registry's constructor builds for one detector

    The model [__init__] stores under the key [k]: none if [k] is not a
    key of [_det_translate]. *)
Definition model_of {drm : Type} {D : DRMGen drm} (gbm_orbit_T0 : float)
    (get_path_of_data_file : string -> string) (k : string) : option drm :=
  match assoc_lookup k _det_translate with
  | Some det_name =>
      Some (DRMGenTTE det_name 1%Q gbm_orbit_T0
              (get_path_of_data_file
                 (os_path_join "gbm_cspec" (k +:+ ".pha")))
              (get_path_of_data_file "posthist.fit")
              2%Z false)
  | None => None
  end.

(** Two registries with the same detectors registered and the same
    energy tables. *)
Definition same_layout {drm : Type} (g g0 : @ResponseGenerator drm) : Prop :=
  dom (_detectors g) = dom (_detectors g0) /\
  _mc_energies g = _mc_energies g0 /\
  _ebounds g = _ebounds g0.

(** A method that keeps the layout of the registry it runs on. *)
Definition keeps_layout {drm : Type} {A} (c : Py (@ResponseGenerator drm) A)
  : Prop :=
  forall self, same_layout (c self).2 self.

(** The named parameters of [ParameterServer.__init__]. *)
Definition required_keywords : list string :=
  ["name"; "ra"; "dec"; "z"; "duration"; "T0"].

(** [param_dict] after the loop over the local parameters, when every
    column reaches index [i]. *)
Definition with_local_parameters (i : nat)
    (items : list (string * list Value)) (param_dict : gmap string Value)
  : option (gmap string Value) :=
  foldl (fun acc kv =>
           match acc, kv.2 !! i with
           | Some m, Some x => Some (<[kv.1 := x]> m)
           | _, _ => None
           end) (Some param_dict) items.

(** ** Concrete collaborators

    A small response model and a small outside world, on which the
    definitions above can be run. *)

(** A response model that remembers what it was told; its 2 x 3 matrix
    is read off its current time and pointing. *)
Record ToyDRM : Type := {
  toy_name : string;
  toy_time : float;
  toy_ra : float;
  toy_dec : float
}.

#[export] Instance ToyDRM_DRMGen : DRMGen ToyDRM := {|
  DRMGenTTE det_name time T0 _ _ _ _ :=
    {| toy_name := det_name; toy_time := time; toy_ra := 0%Q;
       toy_dec := 0%Q |};
  drm_set_time t d :=
    {| toy_name := toy_name d; toy_time := t; toy_ra := toy_ra d;
       toy_dec := toy_dec d |};
  drm_set_location ra dec d :=
    {| toy_name := toy_name d; toy_time := toy_time d; toy_ra := ra;
       toy_dec := dec |};
  drm_matrix d :=
    {| nrows := 2; ncols := 3;
       entry i j :=
         match i, j with
         | 0, 0 => toy_time d
         | 0, 1 => toy_ra d
         | 0, 2 => toy_dec d
         | _, _ => 0%Q
         end |};
  drm_monte_carlo_energies _ := [];
  drm_ebounds _ := []
|}.

(** The registry the import builds over the toy model. *)
Definition toy_registry : ResponseGenerator :=
  (ResponseGenerator_init 0%Q (fun s => s) blank).2.

#[export] Instance Path_eq_dec : EqDecision Path.
Proof. solve_decision. Defined.

(** An outside world: a working directory, the files that exist, the
    one population every file name loads, and the names of the GRBs
    whose simulation fails. *)
Record Sandbox : Type := {
  sb_cwd : string;
  sb_files : list Path;
  sb_population : Population;
  sb_failing : list string
}.

Definition sb_add_file (p : Path) (x : Sandbox) : Sandbox :=
  {| sb_cwd := sb_cwd x; sb_files := p :: sb_files x;
     sb_population := sb_population x; sb_failing := sb_failing x |}.

Definition sb_simulate (ps : ParameterServer) : Py Sandbox unit :=
  fun x =>
    match _parameters ps !! "name", _file_path ps with
    | Some (VStr name), Some p =>
        if bool_decide (name ∈ sb_failing x)
        then (inl (ExternalError name), x)
        else (inr tt, sb_add_file p x)
    | _, _ => (inl TypeError, x)
    end.

#[export] Instance Sandbox_Collaborators : Collaborators Sandbox := {|
  os_getcwd := sb_cwd;
  Path_exists p x := bool_decide (p ∈ sb_files x);
  Population_from_file _ := fun x => (inr (sb_population x), x);
  Client_scatter _ _ := ret 1;
  Client_map _ f _ := ret 2;
  progress _ := ret tt;
  Client_gather _ _ :=
    fun x => match sb_failing x with
             | [] => (inr 3, x)
             | name :: _ => (inl (ExternalError name), x)
             end;
  Survey _ _ := ret 4;
  Survey_write _ file_name :=
    modify (sb_add_file (pathlib.of_string file_name))
|}.

#[export] Instance Sandbox_Universe : UniverseSubclass Sandbox := {|
  _grb_wrapper ps _ := sb_simulate ps
|}.

#[export] Instance Sandbox_GRB : GRBWrapperSubclass Sandbox := {|
  _grb_type kw :=
    match kw !! "name" with
    | Some (VStr name) =>
        fun x => if bool_decide (name ∈ sb_failing x)
                 then (inl (ExternalError name), x)
                 else (inr 5, x)
    | _ => raise TypeError
    end;
  GRB_go _ _ _ := ret tt;
  GRB_save _ file_path _ :=
    match file_path with
    | Some p => modify (sb_add_file p)
    | None => raise TypeError
    end
|}.

(** Three selected records with durations 10, 20 and 5. *)
Definition three_records : Population :=
  {| pop_ra := [10%Q; 20%Q; 30%Q];
     pop_dec := [(-5)%Q; 0%Q; 5%Q];
     pop_distances := [1%Q; 2%Q; 3%Q];
     pop_duration := Some [10%Q; 20%Q; 5%Q];
     pop_selection := [true; true; true] |}.




Definition sandbox (files : list Path) (pop : Population) : Sandbox :=
  {| sb_cwd := "/home/grb"; sb_files := files; sb_population := pop;
     sb_failing := [] |}.

(** A directory in which the output of the second record is already
    there. *)
Definition resumed : Sandbox :=
  sandbox [pathlib.of_string "Test_1_store.h5"] three_records.

(** * Properties *)

(** ** The response-generator registry *)

Section RegistryFacts.
Context {drm : Type} {D : DRMGen drm}.
Variable gbm_orbit_T0 : float.
Variable get_path_of_data_file : string -> string.

Local Abbreviation registry_init :=
  (ResponseGenerator_init gbm_orbit_T0 get_path_of_data_file).
Local Abbreviation request :=
  (SingletonMeta_call gbm_orbit_T0 get_path_of_data_file).
Local Abbreviation imported :=
  (import_module gbm_orbit_T0 get_path_of_data_file).
Local Abbreviation run_ops := (run gbm_orbit_T0 get_path_of_data_file).
Local Abbreviation exec_op := (exec gbm_orbit_T0 get_path_of_data_file).

(** A failed assertion on the detector name ends the method before it
    has touched anything. *)
Lemma assert_unregistered {A} (self : @ResponseGenerator drm) det_name
    (k : @Method drm A) :
  _detectors self !! det_name = None ->
  (py_assert (has_detector det_name self) "" >> k) self
  = (inl (AssertionError ""), self).
Proof.
  intros Hnone. unfold has_detector.
  rewrite bool_decide_eq_false_2.
  - reflexivity.
  - rewrite Hnone. intros [? ?]. discriminate.
Qed.

Lemma assert_registered {A} (self : @ResponseGenerator drm) det_name d
    (k : @Method drm A) :
  _detectors self !! det_name = Some d ->
  (py_assert (has_detector det_name self) "" >> k) self = k self.
Proof.
  intros Hsome. unfold has_detector.
  rewrite bool_decide_eq_true_2; [reflexivity | eauto].
Qed.

Lemma call_detector_registered (self : @ResponseGenerator drm) det_name d m :
  _detectors self !! det_name = Some d ->
  call_detector det_name m self
  = (inr tt, {| _detectors := <[det_name := m d]> (_detectors self);
                _mc_energies := _mc_energies self;
                _ebounds := _ebounds self |}).
Proof. intros Hd. unfold call_detector, bind, get. rewrite Hd. reflexivity. Qed.

(** [__init__] cannot raise: every key it looks up comes from the table
    it iterates over. *)
Lemma registry_init_returns :
  (registry_init blank).1 = inr tt.
Proof. reflexivity. Qed.

Lemma import_state :
  imported
  = (inr 0, {| heap := [(registry_init blank).2]; cls_inst := Some 0 |}).
Proof. reflexivity. Qed.

(** Once [_inst] is set, a request returns it and changes nothing. *)
Lemma request_when_set p inst :
  cls_inst p = Some inst -> request p = (inr inst, p).
Proof.
  intros Hi. unfold SingletonMeta_call, bind, get. rewrite Hi. reflexivity.
Qed.

Lemma on_instance_shape {A} r (m : @Method drm A) p :
  cls_inst (on_instance r m p).2 = cls_inst p /\
  length (heap (on_instance r m p).2) = length (heap p).
Proof.
  unfold on_instance. destruct (heap p !! r) as [g|]; [|done].
  destruct (m g) as [res g']. simpl. by rewrite length_insert.
Qed.

(** The invariant of a process that has imported the module. *)
Lemma exec_preserves op p :
  cls_inst p = Some 0 /\ length (heap p) = 1 ->
  cls_inst (exec_op op p) = Some 0 /\ length (heap (exec_op op p)) = 1.
Proof.
  intros [Hi Hl].
  destruct op; simpl.
  - by rewrite (request_when_set _ _ Hi).
  - destruct (on_instance_shape r (generate_response ra dec time det_name) p)
      as [-> ->]. done.
  - destruct (on_instance_shape r (set_time time det_name) p) as [-> ->].
    done.
  - destruct (on_instance_shape r (set_location ra dec det_name) p)
      as [-> ->]. done.
Qed.

Lemma run_invariant ops :
  cls_inst (run_ops ops) = Some 0 /\ length (heap (run_ops ops)) = 1.
Proof.
  unfold run.
  induction ops as [|op ops IH] using rev_ind.
  - rewrite import_state. done.
  - rewrite foldl_app. simpl. by apply exec_preserves.
Qed.

(** C3.  A detector name that is not a key of [self._detectors] makes
    [generate_response], [set_time] and [set_location] each fail on
    their first [assert] (the spec's [UnknownDetectorError] is that
    [AssertionError]), and the registry, hence every registered
    detector model, is left exactly as it was. *)
Theorem unknown_detector_rejected
    (self : @ResponseGenerator drm) (ra dec time : float) det_name :
  _detectors self !! det_name = None ->
  generate_response ra dec time det_name self
    = (inl (AssertionError ""), self) /\
  set_time time det_name self = (inl (AssertionError ""), self) /\
  set_location ra dec det_name self = (inl (AssertionError ""), self).
Proof.
  intros Hnone. repeat split.
  - exact (assert_unregistered self det_name _ Hnone).
  - exact (assert_unregistered self det_name _ Hnone).
  - exact (assert_unregistered self det_name _ Hnone).
Qed.

(** C5.  For a registered detector, [generate_response] succeeds; the
    model under [det_name] has first been given the time and then the
    pointing, every other key of [_detectors] holds what it held, and
    the value returned is the [matrix] of the updated model,
    transposed. *)
Theorem generate_response_registered
    (self : @ResponseGenerator drm) (ra dec time : float) det_name d :
  _detectors self !! det_name = Some d ->
  let d' := drm_set_location ra dec (drm_set_time time d) in
  let '(result, self') := generate_response ra dec time det_name self in
  result = inr (T (drm_matrix d')) /\
  _detectors self' !! det_name = Some d' /\
  (forall other, other <> det_name ->
     _detectors self' !! other = _detectors self !! other) /\
  _mc_energies self' = _mc_energies self /\
  _ebounds self' = _ebounds self /\
  (set_time time det_name >> set_location ra dec det_name) self
    = (result, self').
Proof.
  intros Hd d'.
  pose (self1 := {| _detectors := <[det_name := drm_set_time time d]>
                                    (_detectors self);
                    _mc_energies := _mc_energies self;
                    _ebounds := _ebounds self |}).
  assert (H1 : _detectors self1 !! det_name = Some (drm_set_time time d))
    by apply lookup_insert_eq.
  pose (self2 := {| _detectors := <[det_name := d']> (_detectors self1);
                    _mc_energies := _mc_energies self1;
                    _ebounds := _ebounds self1 |}).
  assert (H2 : _detectors self2 !! det_name = Some d')
    by apply lookup_insert_eq.
  assert (Hst : set_time time det_name self = (inr tt, self1)).
  { unfold set_time. unfold bind at 1, get at 1.
    rewrite (assert_registered _ _ _ _ Hd).
    by rewrite (call_detector_registered _ _ _ _ Hd). }
  assert (Hsl : set_location ra dec det_name self1
                = (inr (T (drm_matrix d')), self2)).
  { unfold set_location. unfold bind at 1, get at 1.
    rewrite (assert_registered _ _ _ _ H1).
    erewrite bind_inr by apply (call_detector_registered _ _ _ _ H1).
    unfold detector_matrix_T, bind, get. simpl.
    rewrite lookup_insert_eq. reflexivity. }
  assert (Hgr : generate_response ra dec time det_name self
                = (inr (T (drm_matrix d')), self2)).
  { unfold generate_response. unfold bind at 1, get at 1.
    rewrite (assert_registered _ _ _ _ Hd).
    erewrite bind_inr by apply (call_detector_registered _ _ _ _ Hd).
    unfold bind at 1, get at 1.
    rewrite (assert_registered _ _ _ _ H1).
    erewrite bind_inr by apply (call_detector_registered _ _ _ _ H1).
    unfold detector_matrix_T, bind, get. simpl.
    rewrite lookup_insert_eq. reflexivity. }
  rewrite Hgr. repeat split; try done.
  - intros other Hne. simpl. by rewrite !lookup_insert_ne.
  - erewrite bind_inr by exact Hst. exact Hsl.
Qed.

(** C4.  At any two moments of a process that has imported the module,
    whatever requests and method calls came before and in between, a
    construction request returns the object the import built (address
    0), runs no [__init__] and allocates nothing: the process is left
    as it was and holds exactly one registry. *)
Theorem singleton_registry (before between : list Op) :
  let p1 := run_ops before in
  let p2 := run_ops (before ++ between) in
  imported.1 = inr 0 /\
  request p1 = (inr 0, p1) /\
  request p2 = (inr 0, p2) /\
  length (heap p1) = 1 /\
  length (heap p2) = 1.
Proof.
  intros p1 p2.
  destruct (run_invariant before) as [Hi1 Hl1].
  destruct (run_invariant (before ++ between)) as [Hi2 Hl2].
  repeat split; try done.
  - by apply request_when_set.
  - by apply request_when_set.
Qed.

End RegistryFacts.

Lemma toy_registry_n1 :
  _detectors toy_registry !! "n1"
  = Some {| toy_name := "NAI_01"; toy_time := 1%Q; toy_ra := 0%Q;
            toy_dec := 0%Q |}.
Proof. vm_compute. reflexivity. Qed.

Lemma unknown_detector_rejected_witness :
  _detectors toy_registry !! "n12" = None /\
  generate_response 1%Q 2%Q 3%Q "n12" toy_registry
    = (inl (AssertionError ""), toy_registry).
Proof.
  assert (H : _detectors toy_registry !! "n12" = None)
    by (vm_compute; reflexivity).
  split; [exact H|].
  exact (proj1 (unknown_detector_rejected toy_registry 1%Q 2%Q 3%Q "n12" H)).
Defined.

Lemma generate_response_registered_witness :
  (generate_response 10%Q 20%Q 3%Q "n1" toy_registry).1
  = inr (T (drm_matrix {| toy_name := "NAI_01"; toy_time := 3%Q;
                          toy_ra := 10%Q; toy_dec := 20%Q |})).
Proof.
  pose proof (generate_response_registered toy_registry 10%Q 20%Q 3%Q "n1"
                _ toy_registry_n1) as H.
  simpl in H.
  destruct (generate_response 10%Q 20%Q 3%Q "n1" toy_registry) as [r s].
  exact (proj1 H).
Defined.

(** ** The Universe *)

Lemma string_app_assoc (a b c : string) : (a +:+ b) +:+ c = a +:+ b +:+ c.
Proof.
  induction a as [|x a IH]; [reflexivity|].
  change (String x ((a +:+ b) +:+ c) = String x (a +:+ b +:+ c)).
  by rewrite IH.
Qed.



Lemma sum_bool_all_selected (l : list bool) :
  Forall (fun b => b = true) l -> sum_bool l = length l.
Proof. induction 1 as [|b l -> _ IH]; simpl; [reflexivity | by rewrite IH]. Qed.

(** The constructor of a server keeps exactly the keywords it is
    given, when the six named ones are among them and nothing else
    is. *)
Lemma ParameterServer_init_record {S} (z ra dec duration : float)
    (name : string) (s : S) :
  let kw : gmap string Value :=
    <["T0" := VFloat 0%Q]> (<["duration" := VFloat duration]>
      (<["name" := VStr name]> (<["dec" := VFloat dec]>
        (<["ra" := VFloat ra]> (<["z" := VFloat z]> ∅))))) in
  ParameterServer_init kw s
  = (inr {| _parameters := kw; _file_path := None |}, s).
Proof. intros kw. vm_compute. reflexivity. Qed.

Section UniverseFacts.
Context {Ext : Type} {C : Collaborators Ext} {U : UniverseSubclass Ext}.

(** One turn of the construction loop, when the Universe has no local
    parameters: it fails with [IndexError] and no effect if a column is
    too short, and otherwise builds the server, asks whether the file
    exists, and queues the server only if it does not. *)
Lemma construct_one_turn (i : nat) (u : Universe) (w : World Ext) :
  _local_parameters u = [] ->
  construct_one i (u, w) =
    match record_param_dict u i, record_file_name u i with
    | Some kw, Some f =>
        let w' := {| ext := ext w; log := log w ++ record_events u i |} in
        if Path_exists f (ext w) then
          (inr {| _parameters := kw; _file_path := None |}, (u, w'))
        else
          let ps := {| _parameters := kw; _file_path := Some f |} in
          (inr ps,
           (set_parameter_servers (_parameter_servers u ++ [ps]) u, w'))
    | _, _ => (inl IndexError, (u, w))
    end.
Proof.
  intros Hloc. unfold construct_one, record_events, record_param_dict,
    record_file_name.
  unfold bind at 1, get_self at 1. simpl.
  destruct (_z u !! i) as [z|] eqn:Hz; unfold index at 1; rewrite Hz;
    [|reflexivity].
  unfold bind at 1, ret at 1.
  destruct (_ra u !! i) as [ra|] eqn:Hra; unfold index at 1; rewrite Hra;
    [|reflexivity].
  unfold bind at 1, ret at 1.
  destruct (_dec u !! i) as [dec|] eqn:Hdec; unfold index at 1; rewrite Hdec;
    [|reflexivity].
  unfold bind at 1, ret at 1.
  destruct (_name u !! i) as [name|] eqn:Hname; unfold index at 1;
    rewrite Hname; [|reflexivity].
  unfold bind at 1, ret at 1.
  destruct (_duration u !! i) as [d|] eqn:Hd; unfold index at 1; rewrite Hd;
    [|reflexivity].
  unfold bind at 1, ret at 1.
  rewrite Hloc. simpl add_local_parameters.
  unfold bind at 1, ret at 1.
  unfold bind at 1, in_world at 1, external at 1. simpl.
  rewrite ParameterServer_init_record.
  unfold index at 1. rewrite Hname.
  unfold bind at 1, ret at 1.
  unfold bind at 1, get_ext at 1. simpl.
  unfold bind at 1, in_world at 1, external at 1, ret at 1. simpl.
  rewrite <- app_assoc. simpl.
  destruct (Path_exists _ (ext w)); reflexivity.
Qed.

(** Queuing servers touches no attribute the loop reads. *)
Lemma record_queued_set l (u : Universe) (x : Ext) i :
  record_queued (set_parameter_servers l u) x i = record_queued u x i.
Proof. reflexivity. Qed.

Lemma record_events_set l (u : Universe) i :
  record_events (set_parameter_servers l u) i = record_events u i.
Proof. reflexivity. Qed.

Lemma set_parameter_servers_same (u : Universe) :
  set_parameter_servers (_parameter_servers u ++ []) u = u.
Proof. destruct u. unfold set_parameter_servers. simpl. by rewrite app_nil_r. Qed.

Lemma record_file_name_some (u : Universe) i kw :
  record_param_dict u i = Some kw -> is_Some (record_file_name u i).
Proof.
  unfold record_param_dict, record_file_name.
  destruct (_z u !! i), (_ra u !! i), (_dec u !! i), (_name u !! i);
    try discriminate; eauto.
Qed.

(** The construction loop over any list of indices runs through a
    prefix of it: all of it, or up to the first index a column does not
    reach, where it raises [IndexError].  Along the prefix the queue
    and the log grow as [record_queued] and [record_events] say. *)
Lemma construct_loop (l : list nat) (u : Universe) (w : World Ext) :
  _local_parameters u = [] ->
  exists l1 l2,
    l = l1 ++ l2 /\
    for_each l (fun i => construct_one i >> ret tt) (u, w)
    = (match l2 with [] => inr tt | _ :: _ => inl IndexError end,
       (set_parameter_servers
          (_parameter_servers u ++ omap (record_queued u (ext w)) l1) u,
        {| ext := ext w;
           log := log w ++ flat_map (record_events u) l1 |})) /\
    match l2 with
    | [] => True
    | i :: _ => record_param_dict u i = None
    end.
Proof.
  revert u w. induction l as [|i l IH]; intros u w Hloc.
  - exists [], []. repeat split. simpl.
    rewrite set_parameter_servers_same, app_nil_r. by destruct w.
  - simpl for_each. unfold bind at 1. unfold bind at 1.
    rewrite (construct_one_turn i u w Hloc).
    destruct (record_param_dict u i) as [kw|] eqn:Hkw.
    + destruct (record_file_name_some u i kw Hkw) as [f Hf]. rewrite Hf.
      cbv zeta.
      destruct (Path_exists f (ext w)) eqn:Hex.
      * destruct (IH u {| ext := ext w; log := log w ++ record_events u i |}
                    Hloc) as (l1 & l2 & -> & Hrun & Hfail).
        exists (i :: l1), l2. repeat split; [|exact Hfail].
        unfold ret at 1. rewrite Hrun. simpl ext. simpl log.
        simpl omap. unfold record_queued at 2. rewrite Hkw, Hf, Hex.
        simpl flat_map. by rewrite app_assoc.
      * set (ps := {| _parameters := kw; _file_path := Some f |}).
        destruct (IH (set_parameter_servers (_parameter_servers u ++ [ps]) u)
                    {| ext := ext w; log := log w ++ record_events u i |}
                    Hloc) as (l1 & l2 & -> & Hrun & Hfail).
        exists (i :: l1), l2. repeat split; [|exact Hfail].
        unfold ret at 1. rewrite Hrun. simpl ext. simpl log.
        simpl omap. unfold record_queued at 2. rewrite Hkw, Hf, Hex.
        simpl flat_map. fold ps. simpl.
        by rewrite <- !app_assoc.
    + exists [], (i :: l). repeat split; [|exact Hkw].
      simpl. rewrite set_parameter_servers_same, app_nil_r.
      destruct (record_file_name u i); by destruct w.
Qed.

(** *** The constructor, case by case *)

Lemma Universe_new_load_fails pf base sp (x : Ext) e x0 :
  Population_from_file pf x = (inl e, x0) ->
  Universe_new pf base sp x
  = (inl e, (blank_universe, {| ext := x0; log := [Call_from_file pf] |})).
Proof.
  intros Hload. unfold Universe_new, Universe_init.
  unfold bind at 1, get_ext at 1. simpl.
  unfold bind at 1, in_world at 1, external at 1. simpl.
  by rewrite Hload.
Qed.

Lemma Universe_new_unselected pf base sp (x : Ext) pop x0 :
  Population_from_file pf x = (inr pop, x0) ->
  sum_bool (pop_selection pop) <> length (pop_selection pop) ->
  Universe_new pf base sp x
  = (inl (AssertionError selection_message),
     (blank_universe, {| ext := x0; log := [Call_from_file pf] |})).
Proof.
  intros Hload Hsel. unfold Universe_new, Universe_init.
  unfold bind at 1, get_ext at 1. simpl.
  unfold bind at 1, in_world at 1, external at 1. simpl.
  rewrite Hload. unfold bind at 1.
  apply Nat.eqb_neq in Hsel. rewrite Hsel. reflexivity.
Qed.

(** Past the assertion, [__init__] has assigned every attribute and the
    three derivation steps run. *)
Lemma Universe_new_selected pf base sp (x : Ext) pop x0 :
  Population_from_file pf x = (inr pop, x0) ->
  sum_bool (pop_selection pop) = length (pop_selection pop) ->
  let n := length (pop_selection pop) in
  let w0 := {| ext := x0; log := [Call_from_file pf] |} in
  exists u0,
    _population_file u0
      = pathlib.absolute (os_getcwd x) (pathlib.of_string pf) /\
    _is_processed u0 = false /\
    _grb_base_name u0 = base /\
    _save_path u0 = pathlib.of_string sp /\
    _n_grbs u0 = n /\
    _name u0 = grb_name base <$> seq 0 n /\
    _local_parameters u0 = [] /\
    _parameter_servers u0 = [] /\
    _ra u0 = pop_ra pop /\ _dec u0 = pop_dec pop /\
    _z u0 = pop_distances pop /\
    match pop_duration pop with
    | None =>
        Universe_new pf base sp x
        = (inl (RuntimeError duration_message), (u0, w0))
    | Some d =>
        Universe_new pf base sp x
        = for_each (seq 0 n) (fun i => construct_one i >> ret tt)
            (set_duration d u0, w0)
    end.
Proof.
  intros Hload Hsel n w0.
  pose (ubase :=
          {| _population_file :=
               pathlib.absolute (os_getcwd x) (pathlib.of_string pf);
             _is_processed := false;
             _population := pop;
             _grb_base_name := base;
             _save_path := pathlib.of_string sp;
             _n_grbs := n;
             _name := grb_name base <$> seq 0 n;
             _local_parameters := [];
             _parameter_servers := [];
             _ra := []; _dec := []; _z := []; _duration := [] |}).
  assert (Hrun : Universe_new pf base sp x
    = (_process_populations >> _contstruct_parameter_servers) (ubase, w0)).
  { unfold Universe_new, Universe_init.
    unfold bind at 1, get_ext at 1. simpl.
    unfold bind at 1, in_world at 1, external at 1. simpl.
    rewrite Hload. unfold bind at 1.
    apply Nat.eqb_eq in Hsel. rewrite Hsel. reflexivity. }
  rewrite Hrun. clear Hrun.
  exists (set_z (pop_distances pop) (set_sky_coord (pop_ra pop)
    (pop_dec pop) ubase)).
  do 11 (split; [reflexivity|]).
  destruct (pop_duration pop) as [d|] eqn:Hd.
  - unfold _process_populations, _get_sky_coord, _get_redshift,
      _get_duration, bind, get_self, set_self. simpl. rewrite Hd.
    reflexivity.
  - unfold _process_populations, _get_sky_coord, _get_redshift,
      _get_duration, bind, get_self, set_self. simpl. rewrite Hd.
    reflexivity.
Qed.

(** *** What the loop queues and logs *)


Lemma record_param_dict_name (u : Universe) i kw :
  record_param_dict u i = Some kw ->
  exists name, _name u !! i = Some name /\ kw !! "name" = Some (VStr name).
Proof.
  unfold record_param_dict.
  destruct (_z u !! i), (_ra u !! i), (_dec u !! i), (_name u !! i) as [name|],
    (_duration u !! i); try discriminate.
  intros [= <-]. exists name. split; [reflexivity|].
  vm_compute. reflexivity.
Qed.






(** *** [go] *)

Lemma serial_turn_queued (i : nat) (u : Universe) (w : World Ext) ps :
  _parameter_servers u !! i = Some ps ->
  serial_turn i (u, w) =
    let world x := {| ext := x; log := log w ++ [Call_grb_wrapper ps true] |} in
    match _grb_wrapper ps true (ext w) with
    | (r, x1) => (r, (u, world x1))
    end.
Proof.
  intros Hps. unfold serial_turn, bind, get_self, index. simpl.
  rewrite Hps. unfold ret, in_world, external. simpl.
  by destruct (_grb_wrapper ps true (ext w)) as [[e|[]] x1].
Qed.

(** The serial loop from position [a] on: it calls the wrapper on the
    queued servers in order, [k] of them, stopping after the first call
    that raises; the Universe itself is not touched. *)
Lemma serial_loop (m a : nat) (u : Universe) (w : World Ext) :
  a + m = length (_parameter_servers u) ->
  let r := for_each (seq a m) serial_turn (u, w) in
  exists k,
    k <= m /\
    r.2.1 = u /\
    log r.2.2
    = log w ++ ((fun ps => Call_grb_wrapper ps true)
                  <$> take k (drop a (_parameter_servers u))) /\
    (r.1 = inr tt -> k = m) /\
    (k < m -> exists e, r.1 = inl e).
Proof.
  revert a w. induction m as [|m IH]; intros a w Hlen r.
  - exists 0. subst r. simpl. rewrite app_nil_r. repeat split; try done; lia.
  - destruct (lookup_lt_is_Some_2 (_parameter_servers u) a ltac:(lia))
      as [ps Hps].
    assert (Hr : r =
      match _grb_wrapper ps true (ext w) with
      | (inl e, x1) =>
          (inl e, (u, {| ext := x1;
                         log := log w ++ [Call_grb_wrapper ps true] |}))
      | (inr _, x1) =>
          for_each (seq (S a) m) serial_turn
            (u, {| ext := x1; log := log w ++ [Call_grb_wrapper ps true] |})
      end).
    { subst r. simpl for_each. unfold bind.
      rewrite (serial_turn_queued a u w ps Hps). simpl.
      by destruct (_grb_wrapper ps true (ext w)) as [[e|[]] x1]. }
    rewrite Hr. clear Hr r.
    destruct (_grb_wrapper ps true (ext w)) as [[e|[]] x1].
    + exists 1. simpl. repeat split; try lia.
      * rewrite (drop_S _ _ _ Hps). reflexivity.
      * discriminate.
      * intros _. by exists e.
    + destruct (IH (S a) {| ext := x1;
                            log := log w ++ [Call_grb_wrapper ps true] |}
                  ltac:(lia)) as (k & Hk & Hself & Hlog & Hok & Hfail).
      exists (S k). repeat split.
      * lia.
      * exact Hself.
      * rewrite Hlog. simpl log. rewrite (drop_S _ _ _ Hps). simpl.
        by rewrite <- app_assoc.
      * intros Hr. by rewrite (Hok Hr).
      * intros Hlt. apply Hfail. lia.
Qed.

Lemma go_serial_run (u : Universe) (w : World Ext) :
  exists k,
    k <= length (_parameter_servers u) /\
    (go_serial (u, w)).2.1 = u /\
    log (go_serial (u, w)).2.2
    = log w ++ ((fun ps => Call_grb_wrapper ps true)
                  <$> take k (_parameter_servers u)) /\
    ((go_serial (u, w)).1 = inr tt -> k = length (_parameter_servers u)) /\
    (k < length (_parameter_servers u) ->
       exists e, (go_serial (u, w)).1 = inl e).
Proof.
  exact (serial_loop (length (_parameter_servers u)) 0 u w eq_refl).
Qed.

(** Quiet methods compose. *)
Lemma quiet_ret {A} (a : A) : quiet (ret (S := Universe * World Ext) a).
Proof. intros u w. split; [done|]. exists []. by rewrite app_nil_r. Qed.

Lemma quiet_raise {A} e : quiet (raise (S := Universe * World Ext) (A := A) e).
Proof. intros u w. split; [done|]. exists []. by rewrite app_nil_r. Qed.

Lemma quiet_get_self : quiet (get_self (Ext := Ext) (L := Universe)).
Proof. intros u w. split; [done|]. exists []. by rewrite app_nil_r. Qed.

Lemma quiet_index {A} (l : list A) i :
  quiet (index (S := Universe * World Ext) l i).
Proof. unfold index. destruct (l !! i); [apply quiet_ret | apply quiet_raise]. Qed.

Lemma quiet_bind {A B} (c : UMethod A) (k : A -> UMethod B) :
  quiet (Ext := Ext) c -> (forall a, quiet (Ext := Ext) (k a)) ->
  quiet (Ext := Ext) (bind c k).
Proof.
  intros Hc Hk u w. unfold bind.
  destruct (Hc u w) as (Hu & evs & Hlog & He & Hb).
  destruct (c (u, w)) as [[e|a] [u1 w1]]; simpl in *; subst u1.
  - split; [done|]. by exists evs.
  - destruct (Hk a u w1) as (Hu' & evs' & Hlog' & He' & Hb').
    split; [done|]. exists (evs ++ evs').
    rewrite Hlog', Hlog, !omap_app, He, He', Hb, Hb'.
    by rewrite app_assoc.
Qed.

Lemma quiet_external {A} ev (op : Py Ext A) :
  exists_checked ev = None -> server_built ev = None ->
  quiet (in_world (L := Universe) (external ev op)).
Proof.
  intros He Hb u w. unfold in_world, external. simpl.
  destruct (op (ext w)) as [r x1]. simpl.
  split; [done|]. exists [ev]. simpl. by rewrite He, Hb.
Qed.

Lemma quiet_for_each {A} (l : list A) (body : A -> UMethod unit) :
  (forall a, quiet (Ext := Ext) (body a)) ->
  quiet (Ext := Ext) (for_each l body).
Proof.
  intros Hbody. induction l as [|a l IH]; simpl.
  - apply quiet_ret.
  - apply quiet_bind; [apply Hbody | intros _; exact IH].
Qed.

Create HintDb quiet.
#[local] Hint Resolve quiet_ret quiet_raise quiet_get_self quiet_index
  quiet_for_each : quiet.

Lemma quiet_serial_turn i : quiet (Ext := Ext) (serial_turn i).
Proof.
  unfold serial_turn.
  apply quiet_bind; [auto with quiet|]. intros self.
  apply quiet_bind; [auto with quiet|]. intros ps.
  by apply quiet_external.
Qed.

Lemma quiet_batch client : quiet (Ext := Ext) (batch client).
Proof.
  destruct client as [c|]; simpl.
  - unfold go_client.
    apply quiet_bind; [auto with quiet|]. intros self.
    apply quiet_bind; [by apply quiet_external|]. intros f1.
    apply quiet_bind; [by apply quiet_external|]. intros f2.
    apply quiet_bind; [by apply quiet_external|]. intros _.
    apply quiet_bind; [by apply quiet_external|]. intros res.
    auto with quiet.
  - unfold go_serial.
    apply quiet_bind; [auto with quiet|]. intros self.
    apply quiet_for_each, quiet_serial_turn.
Qed.

(** [go] is its batch followed, if the batch returned, by the
    assignment of the flag. *)
Lemma go_unfold (client : option ref) (s : Universe * World Ext) :
  go client s =
    match batch client s with
    | (inl e, s1) => (inl e, s1)
    | (inr _, s1) => (inr tt, (set_is_processed true s1.1, s1.2))
    end.
Proof.
  unfold go, bind.
  destruct (batch client s) as [[e|[]] s1]; reflexivity.
Qed.

(** *** Construction from a well-formed population *)

Lemma store_file_name_grb_name base i :
  grb_name base i +:+ "_store.h5" = store_file_name base i.
Proof.
  unfold grb_name, store_file_name. by rewrite !string_app_assoc.
Qed.

(** For a well-formed population the constructor runs its loop to the
    end: the result is known in closed form. *)
Lemma Universe_new_well_formed pf base sp (x : Ext) pop x0 :
  Population_from_file pf x = (inr pop, x0) ->
  well_formed pop ->
  let n := length (pop_selection pop) in
  exists u0,
    _population_file u0
      = pathlib.absolute (os_getcwd x) (pathlib.of_string pf) /\
    _is_processed u0 = false /\
    _grb_base_name u0 = base /\
    _save_path u0 = pathlib.of_string sp /\
    _n_grbs u0 = n /\
    _local_parameters u0 = [] /\
    (forall i, i < n ->
       exists kw,
         record_param_dict u0 i = Some kw /\
         kw !! "name" = Some (VStr (grb_name base i)) /\
         record_file_name u0 i
         = Some (pathlib.of_string sp </> store_file_name base i)) /\
    Universe_new pf base sp x
    = (inr tt,
       (set_parameter_servers (omap (record_queued u0 x0) (seq 0 n)) u0,
        {| ext := x0;
           log := Call_from_file pf
                  :: flat_map (record_events u0) (seq 0 n) |})).
Proof.
  intros Hload (Hra & Hdec & Hz & (d & Hd & Hdlen) & Hsel) n.
  subst n.
  destruct (Universe_new_selected pf base sp x pop x0 Hload
              (sum_bool_all_selected _ Hsel))
    as (u0 & Hpf & Hproc & Hbase & Hsp & Hn & Hname & Hloc & Hps &
        Hura & Hudec & Huz & Hrun).
  rewrite Hd in Hrun.
  exists (set_duration d u0).
  assert (Hrec : forall i, i < length (pop_selection pop) ->
     exists kw,
       record_param_dict (set_duration d u0) i = Some kw /\
       kw !! "name" = Some (VStr (grb_name base i)) /\
       record_file_name (set_duration d u0) i
       = Some (pathlib.of_string sp </> store_file_name base i)).
  { intros i Hi.
    assert (Hni : _name u0 !! i = Some (grb_name base i)).
    { rewrite Hname, list_lookup_fmap.
      by rewrite (lookup_seq_lt 0 _ i Hi). }
    destruct (lookup_lt_is_Some_2 (pop_distances pop) i ltac:(lia))
      as [z Hzi].
    destruct (lookup_lt_is_Some_2 (pop_ra pop) i ltac:(lia)) as [ra Hrai].
    destruct (lookup_lt_is_Some_2 (pop_dec pop) i ltac:(lia))
      as [dec Hdeci].
    destruct (lookup_lt_is_Some_2 d i ltac:(lia)) as [du Hdui].
    unfold record_param_dict, record_file_name. simpl.
    rewrite Huz, Hura, Hudec, Hzi, Hrai, Hdeci, Hni, Hdui, Hsp.
    eexists. split; [reflexivity|]. split.
    - vm_compute. reflexivity.
    - by rewrite store_file_name_grb_name. }
  do 6 (split; [assumption|]).
  split; [exact Hrec|].
  rewrite Hrun.
  destruct (construct_loop (seq 0 (length (pop_selection pop)))
              (set_duration d u0)
              {| ext := x0; log := [Call_from_file pf] |} Hloc)
    as (l1 & l2 & Hl & Hloop & Hfail).
  destruct l2 as [|i l2].
  - rewrite app_nil_r in Hl. rewrite <- Hl in Hloop. rewrite Hloop. simpl.
    by rewrite Hps.
  - exfalso.
    assert (Hi : i ∈ seq 0 (length (pop_selection pop))).
    { rewrite Hl. apply elem_of_app. right. apply elem_of_cons. by left. }
    apply elem_of_seq in Hi.
    destruct (Hrec i ltac:(lia)) as (kw & Hkw & _). congruence.
Qed.

Lemma events_checked (u0 : Universe) (f : nat -> Path) (l : list nat) :
  (forall i, i ∈ l ->
     exists kw, record_param_dict u0 i = Some kw /\
                record_file_name u0 i = Some (f i)) ->
  omap exists_checked (flat_map (record_events u0) l) = f <$> l.
Proof.
  induction l as [|i l IH]; intros Hrec; [reflexivity|].
  simpl. rewrite omap_app.
  destruct (Hrec i ltac:(by left)) as (kw & Hkw & Hf).
  unfold record_events at 1. rewrite Hkw, Hf. simpl.
  f_equal. apply IH. intros j Hj. apply Hrec. by right.
Qed.

Lemma queued_filter (u0 : Universe) (x0 : Ext) (f : nat -> Path)
    (name : nat -> string) (l : list nat) :
  (forall i, i ∈ l ->
     exists kw, record_param_dict u0 i = Some kw /\
                kw !! "name" = Some (VStr (name i)) /\
                record_file_name u0 i = Some (f i)) ->
  Forall2 (fun i ps => _file_path ps = Some (f i) /\
                       _parameters ps !! "name" = Some (VStr (name i)))
          (List.filter (fun i => negb (Path_exists (f i) x0)) l)
          (omap (record_queued u0 x0) l).
Proof.
  induction l as [|i l IH]; intros Hrec; [constructor|].
  assert (IH' := IH (fun j Hj => Hrec j ltac:(by right))).
  destruct (Hrec i ltac:(by left)) as (kw & Hkw & Hname & Hf).
  simpl. unfold record_queued at 1. rewrite Hkw, Hf.
  destruct (Path_exists (f i) x0); simpl; [exact IH'|].
  constructor; [|exact IH']. by split.
Qed.

(** [go] leaves the queue alone and checks no file. *)
Lemma go_checks_nothing (client : option ref) (u : Universe) (w : World Ext) :
  _parameter_servers (go client (u, w)).2.1 = _parameter_servers u /\
  omap exists_checked (log (go client (u, w)).2.2)
  = omap exists_checked (log w).
Proof.
  rewrite go_unfold.
  destruct (quiet_batch client u w) as (Hu & evs & Hlog & He & _).
  destruct (batch client (u, w)) as [[e|[]] [u1 w1]]; simpl in *; subst u1.
  - split; [done|]. by rewrite Hlog, omap_app, He, app_nil_r.
  - split; [done|]. by rewrite Hlog, omap_app, He, app_nil_r.
Qed.

(** C1.  With a well-formed population the constructor returns.  It has
    asked, once per record and in order, whether
    [save_path / f"{base_name}_{i}_store.h5"] exists; the run list is,
    in order, one server per record whose file did not exist, carrying
    that path and the record's name.  A turn of the loop for a record
    whose file exists yields a server whose path is still [None] and
    leaves the Universe as it is; otherwise the server has the path and
    is appended.  [go] checks no file and does not change the run
    list. *)
Theorem construction_skips_existing_files pf base sp (x : Ext) pop x0 :
  Population_from_file pf x = (inr pop, x0) ->
  well_formed pop ->
  let n := length (pop_selection pop) in
  let file_name := fun i => pathlib.of_string sp </> store_file_name base i in
  let r := Universe_new pf base sp x in
  let u := r.2.1 in
  r.1 = inr tt /\
  ext r.2.2 = x0 /\
  omap exists_checked (log r.2.2) = file_name <$> seq 0 n /\
  Forall2 (fun i ps => _file_path ps = Some (file_name i) /\
                       _parameters ps !! "name"
                       = Some (VStr (grb_name base i)))
          (List.filter (fun i => negb (Path_exists (file_name i) x0))
                       (seq 0 n))
          (_parameter_servers u) /\
  (forall i w, i < n ->
     let t := construct_one i (u, w) in
     if Path_exists (file_name i) (ext w)
     then (exists ps, t.1 = inr ps /\ _file_path ps = None) /\ t.2.1 = u
     else exists ps,
            t.1 = inr ps /\ _file_path ps = Some (file_name i) /\
            t.2.1 = set_parameter_servers (_parameter_servers u ++ [ps]) u) /\
  (forall client,
     _parameter_servers (go client r.2).2.1 = _parameter_servers u /\
     omap exists_checked (log (go client r.2).2.2)
     = omap exists_checked (log r.2.2)).
Proof.
  intros Hload Hwf n file_name r u.
  destruct (Universe_new_well_formed pf base sp x pop x0 Hload Hwf)
    as (u0 & _ & _ & _ & _ & _ & Hloc & Hrec & Hrun).
  subst u r. rewrite Hrun. simpl.
  assert (Hrec' : forall i, i ∈ seq 0 n ->
            exists kw, record_param_dict u0 i = Some kw /\
                       kw !! "name" = Some (VStr (grb_name base i)) /\
                       record_file_name u0 i = Some (file_name i)).
  { intros i Hi. apply elem_of_seq in Hi. apply Hrec. lia. }
  split; [reflexivity|]. split; [reflexivity|]. split.
  { apply events_checked. intros i Hi.
    destruct (Hrec' i Hi) as (kw & Hkw & _ & Hf). eauto. }
  split.
  { by apply queued_filter. }
  split.
  - intros i w Hi.
    destruct (Hrec i Hi) as (kw & Hkw & _ & Hf).
    rewrite construct_one_turn by exact Hloc.
    change (record_param_dict (set_parameter_servers _ u0) i)
      with (record_param_dict u0 i).
    change (record_file_name (set_parameter_servers _ u0) i)
      with (record_file_name u0 i).
    rewrite Hkw, Hf. cbv zeta. fold (file_name i).
    destruct (Path_exists (file_name i) (ext w)); simpl; eauto.
  - intros client.
    destruct (go_checks_nothing client
                (set_parameter_servers
                   (omap (record_queued u0 x0) (seq 0 n)) u0)
                {| ext := x0;
                   log := Call_from_file pf
                          :: flat_map (record_events u0) (seq 0 n) |})
      as [H1 H2].
    split; [exact H1 | exact H2].
Qed.

(** *** The processed flag and [save] *)

Lemma Universe_new_not_processed pf base sp (x : Ext) :
  _is_processed (Universe_new pf base sp x).2.1 = false.
Proof.
  destruct (Population_from_file pf x) as [[e|pop] x0] eqn:Hload.
  { by rewrite (Universe_new_load_fails pf base sp x e x0 Hload). }
  destruct (decide (sum_bool (pop_selection pop)
                    = length (pop_selection pop))) as [Hsel|Hsel].
  2:{ by rewrite (Universe_new_unselected pf base sp x pop x0 Hload Hsel). }
  destruct (Universe_new_selected pf base sp x pop x0 Hload Hsel)
    as (u0 & _ & Hproc & _ & _ & _ & _ & Hloc & _ & _ & _ & _ & Hrun).
  destruct (pop_duration pop) as [d|].
  2:{ by rewrite Hrun. }
  rewrite Hrun.
  destruct (construct_loop (seq 0 (length (pop_selection pop)))
              (set_duration d u0)
              {| ext := x0; log := [Call_from_file pf] |} Hloc)
    as (l1 & l2 & _ & -> & _).
  exact Hproc.
Qed.

Lemma go_flag (client : option ref) (s : Universe * World Ext) :
  _is_processed s.1 = false ->
  (_is_processed (go client s).2.1 = true <-> (go client s).1 = inr tt) /\
  ((go client s).1 = inr tt <-> (batch client s).1 = inr tt).
Proof.
  destruct s as [u w]. simpl. intros Hflag. rewrite go_unfold.
  destruct (quiet_batch client u w) as (Hu & _).
  destruct (batch client (u, w)) as [[e|[]] [u1 w1]]; simpl in *; subst u1.
  - rewrite Hflag. split; split; discriminate.
  - split; split; reflexivity.
Qed.

Lemma go_serial_complete (u : Universe) (w : World Ext) :
  (go None (u, w)).1 = inr tt ->
  log (go None (u, w)).2.2
  = log w ++ ((fun ps => Call_grb_wrapper ps true) <$> _parameter_servers u).
Proof.
  rewrite go_unfold. simpl batch.
  destruct (go_serial_run u w) as (k & Hk & _ & Hlog & Hok & _).
  destruct (go_serial (u, w)) as [[e|[]] [u1 w1]]; simpl in *.
  - discriminate.
  - intros _. rewrite Hlog, (Hok eq_refl). by rewrite firstn_all.
Qed.

Lemma save_unprocessed file_name (s : Universe * World Ext) :
  _is_processed s.1 = false -> save file_name s = (inr tt, s).
Proof.
  intros Hflag. unfold save, bind, get_self. simpl. by rewrite Hflag.
Qed.

(** C6.  The flag is false when the constructor is done, however it
    ended.  From a false flag, [go] leaves it true exactly when [go]
    returns, which is exactly when its batch (serial or distributed)
    returned without an exception; in serial mode a returning [go] has
    called the wrapper on every queued server.  While the flag is
    false, [save] returns at once: nothing is logged, nothing outside
    is touched, the Universe is as it was. *)
Theorem processed_flag_gates_save :
  (forall pf base sp (x : Ext),
     _is_processed (Universe_new pf base sp x).2.1 = false) /\
  (forall client (s : Universe * World Ext),
     _is_processed s.1 = false ->
     (_is_processed (go client s).2.1 = true <-> (go client s).1 = inr tt) /\
     ((go client s).1 = inr tt <-> (batch client s).1 = inr tt)) /\
  (forall (u : Universe) (w : World Ext),
     (go None (u, w)).1 = inr tt ->
     log (go None (u, w)).2.2
     = log w ++ ((fun ps => Call_grb_wrapper ps true)
                   <$> _parameter_servers u)) /\
  (forall file_name (s : Universe * World Ext),
     _is_processed s.1 = false -> save file_name s = (inr tt, s)).
Proof.
  split; [exact Universe_new_not_processed|].
  split; [exact go_flag|].
  split; [exact go_serial_complete | exact save_unprocessed].
Qed.

Lemma absolute_join_absolute cwd (p : Path) name :
  pathlib.is_absolute p = true ->
  pathlib.absolute cwd (p </> name) = p </> name.
Proof.
  intros Hp. unfold pathlib.joinpath.
  destruct (pathlib.is_absolute (pathlib.of_string name)) eqn:Hq.
  - unfold pathlib.absolute. by rewrite Hq.
  - unfold pathlib.absolute, pathlib.is_absolute in *. simpl. by rewrite Hp.
Qed.

Lemma save_processed file_name (u : Universe) (w : World Ext) :
  _is_processed u = true ->
  let files :=
    (fun i => pathlib.absolute (os_getcwd (ext w))
                (_save_path u </> store_file_name (_grb_base_name u) i))
    <$> seq 0 (_n_grbs u) in
  let called := Call_Survey files (_population_file u) in
  save file_name (u, w) =
    match Survey files (_population_file u) (ext w) with
    | (inl e, x1) => (inl e, (u, {| ext := x1; log := log w ++ [called] |}))
    | (inr survey, x1) =>
        match Survey_write survey file_name x1 with
        | (res, x2) =>
            (res, (u, {| ext := x2;
                         log := log w ++ [called;
                                  Call_Survey_write survey file_name] |}))
        end
    end.
Proof.
  intros Hflag files called.
  unfold save, bind, get_self, get_ext, in_world, external.
  cbn [fst snd ext log]. rewrite Hflag. subst called files.
  cbn [fst snd ext log].
  destruct (Survey _ (_population_file u) (ext w)) as [[e|sv] x1];
    cbn [fst snd ext log]; [reflexivity|].
  destruct (Survey_write sv file_name x1) as [res x2].
  by rewrite <- app_assoc.
Qed.

(** C7.  On a processed Universe [save] builds one path per index below
    [_n_grbs], each [save_path / f"{base_name}_{i}_store.h5"] made
    absolute against the working directory (which leaves it as it is
    when [save_path] is absolute), hands the list and the population
    file to [Survey], and, if that returns, writes the survey to
    [file_name]; the run list is not read.  For a Universe built from a
    well-formed population and run by [go], [_n_grbs] is the number of
    records of the population, whatever files existed at
    construction. *)
Theorem save_bundles_every_record :
  (forall file_name (u : Universe) (w : World Ext) queue,
     _is_processed u = true ->
     let files :=
       (fun i => pathlib.absolute (os_getcwd (ext w))
                   (_save_path u </> store_file_name (_grb_base_name u) i))
       <$> seq 0 (_n_grbs u) in
     let called := Call_Survey files (_population_file u) in
     length files = _n_grbs u /\
     (save file_name (set_parameter_servers queue u, w)).1
       = (save file_name (u, w)).1 /\
     log (save file_name (set_parameter_servers queue u, w)).2.2
       = log (save file_name (u, w)).2.2 /\
     save file_name (u, w) =
       match Survey files (_population_file u) (ext w) with
       | (inl e, x1) =>
           (inl e, (u, {| ext := x1; log := log w ++ [called] |}))
       | (inr survey, x1) =>
           match Survey_write survey file_name x1 with
           | (res, x2) =>
               (res, (u, {| ext := x2;
                            log := log w ++ [called;
                                     Call_Survey_write survey file_name] |}))
           end
       end) /\
  (forall cwd (p : Path) name,
     pathlib.is_absolute p = true ->
     pathlib.absolute cwd (p </> name) = p </> name) /\
  (forall pf base sp (x : Ext) pop x0 client,
     Population_from_file pf x = (inr pop, x0) ->
     well_formed pop ->
     (go client (Universe_new pf base sp x).2).1 = inr tt ->
     let u := (go client (Universe_new pf base sp x).2).2.1 in
     _is_processed u = true /\
     _n_grbs u = length (pop_selection pop) /\
     _grb_base_name u = base /\
     _save_path u = pathlib.of_string sp /\
     _population_file u
       = pathlib.absolute (os_getcwd x) (pathlib.of_string pf)).
Proof.
  split; [|split].
  - intros file_name u w queue Hflag files called.
    split; [unfold files; by rewrite length_fmap, length_seq|].
    assert (Hflag' : _is_processed (set_parameter_servers queue u) = true)
      by exact Hflag.
    rewrite (save_processed file_name _ w Hflag').
    rewrite (save_processed file_name u w Hflag).
    subst called files. simpl.
    destruct (Survey _ (_population_file u) (ext w)) as [[e|sv] x1];
      [done|].
    by destruct (Survey_write sv file_name x1) as [res x2].
  - exact absolute_join_absolute.
  - intros pf base sp x pop x0 client Hload Hwf.
    destruct (Universe_new_well_formed pf base sp x pop x0 Hload Hwf)
      as (u0 & Hpf & _ & Hbase & Hsp & Hn & _ & _ & Hrun).
    rewrite Hrun. cbn [snd]. rewrite go_unfold.
    match goal with
    | |- context [batch client (?u1, ?w1)] =>
        destruct (quiet_batch client u1 w1) as (Hu & _);
        destruct (batch client (u1, w1)) as [[e|[]] [u2 w2]]
    end; simpl in *; [discriminate|].
    intros _. subst u2. simpl. by repeat split.
Qed.

End UniverseFacts.

(** ** The GRB wrapper *)

Section GRBWrapperFacts.
Context {Ext : Type} {G : GRBWrapperSubclass Ext}.

(** The wrapper, step by step. *)
Lemma GRBWrapper_new_unfold (ps : ParameterServer) (serial : bool) (x : Ext) :
  GRBWrapper_new ps serial x =
    let built := Call_grb_type (_parameters ps) in
    match _grb_type (_parameters ps) x with
    | (inl e, x1) => (inl e, (None, {| ext := x1; log := [built] |}))
    | (inr grb, x1) =>
        let ran := Call_grb_go grb (go_client_arg serial) serial in
        match GRB_go grb (go_client_arg serial) serial x1 with
        | (inl e, x2) =>
            (inl e, (Some grb, {| ext := x2; log := [built; ran] |}))
        | (inr _, x2) =>
            let saved := Call_grb_save grb (_file_path ps) true in
            match GRB_save grb (_file_path ps) true x2 with
            | (inl e, x3) =>
                (inl e,
                 (Some grb, {| ext := x3; log := [built; ran; saved] |}))
            | (inr _, x3) =>
                (inr tt, (None, {| ext := x3; log := [built; ran; saved] |}))
            end
        end
    end.
Proof.
  unfold GRBWrapper_new, GRBWrapper_init, go_client_arg.
  cbv [bind in_world external set_self local_grb get_self ret raise
       fst snd ext log app].
  destruct (_grb_type (_parameters ps) x) as [[e|grb] x1]; [reflexivity|].
  destruct serial; cbv [negb].
  - destruct (GRB_go grb ClientOmitted true x1) as [[e|[]] x2];
      [reflexivity|].
    destruct (GRB_save grb (_file_path ps) true x2) as [[e|[]] x3];
      reflexivity.
  - destruct (GRB_go grb ClientNone false x1) as [[e|[]] x2];
      [reflexivity|].
    destruct (GRB_save grb (_file_path ps) true x2) as [[e|[]] x3];
      reflexivity.
Qed.

(** C8.  One wrapper invocation calls [_grb_type] exactly once, first,
    with the server's parameters as keywords.  When no step raises it
    then calls [go] on that GRB with the mode flag, then [save] on it
    with the server's file path and [clean_up=True], and nothing else;
    it returns nothing and its local [grb] is unbound at the end. *)
Theorem wrapper_runs_one_grb (ps : ParameterServer) (serial : bool) (x : Ext) :
  let r := GRBWrapper_new ps serial x in
  (exists rest,
     log r.2.2 = Call_grb_type (_parameters ps) :: rest /\
     Forall (fun ev => forall kw, ev <> Call_grb_type kw) rest) /\
  (forall grb x1 x2 x3,
     _grb_type (_parameters ps) x = (inr grb, x1) ->
     GRB_go grb (go_client_arg serial) serial x1 = (inr tt, x2) ->
     GRB_save grb (_file_path ps) true x2 = (inr tt, x3) ->
     r = (inr tt,
          (None,
           {| ext := x3;
              log := [Call_grb_type (_parameters ps);
                      Call_grb_go grb (go_client_arg serial) serial;
                      Call_grb_save grb (_file_path ps) true] |}))) /\
  (r.1 = inr tt ->
   r.2.1 = None /\
   exists grb,
     log r.2.2 = [Call_grb_type (_parameters ps);
                  Call_grb_go grb (go_client_arg serial) serial;
                  Call_grb_save grb (_file_path ps) true]).
Proof.
  intros r. subst r. rewrite GRBWrapper_new_unfold. cbv zeta.
  split; [|split].
  - destruct (_grb_type (_parameters ps) x) as [[e|grb] x1].
    { exists []. by split. }
    destruct (GRB_go grb (go_client_arg serial) serial x1) as [[e|[]] x2].
    { eexists. split; [reflexivity|]. by repeat constructor. }
    destruct (GRB_save grb (_file_path ps) true x2) as [[e|[]] x3];
      (eexists; split; [reflexivity|]; by repeat constructor).
  - intros grb x1 x2 x3 H1 H2 H3. by rewrite H1, H2, H3.
  - destruct (_grb_type (_parameters ps) x) as [[e|grb] x1]; [discriminate|].
    destruct (GRB_go grb (go_client_arg serial) serial x1) as [[e|[]] x2];
      [discriminate|].
    destruct (GRB_save grb (_file_path ps) true x2) as [[e|[]] x3];
      [discriminate|].
    intros _. split; [reflexivity|]. by exists grb.
Qed.

End GRBWrapperFacts.

(** ** The theorems at work on the sandbox *)

Lemma three_records_well_formed : well_formed three_records.
Proof.
  repeat split; try reflexivity.
  - by exists [10%Q; 20%Q; 5%Q].
  - repeat constructor.
Defined.

Lemma construction_skips_existing_files_witness :
  (Universe_new "pop.h5" "Test" "." resumed).1 = inr tt /\
  omap exists_checked (log (Universe_new "pop.h5" "Test" "." resumed).2.2)
  = (fun i => pathlib.of_string "." </> store_file_name "Test" i)
      <$> [0; 1; 2].
Proof.
  pose proof (construction_skips_existing_files "pop.h5" "Test" "." resumed
                three_records resumed eq_refl three_records_well_formed)
    as H.
  cbv zeta in H. destruct H as (H1 & _ & H3 & _).
  split; [exact H1 | exact H3].
Defined.




Lemma processed_flag_gates_save_witness :
  let s := (Universe_new "pop.h5" "Test" "." resumed).2 in
  save "survey.h5" s = (inr tt, s).
Proof.
  intros s.
  exact (proj2 (proj2 (proj2 (@processed_flag_gates_save Sandbox _ _)))
           "survey.h5" s
           (proj1 (@processed_flag_gates_save Sandbox _ _)
              "pop.h5" "Test" "." resumed)).
Defined.

Lemma save_bundles_every_record_witness :
  let s := (go None (Universe_new "pop.h5" "Test" "." resumed).2).2 in
  length (_parameter_servers s.1) = 2 /\
  _n_grbs s.1 = 3 /\
  omap (fun ev => match ev with
                  | Call_Survey files _ => Some files
                  | _ => None
                  end) (log (save "survey.h5" s).2.2)
  = [(fun i => pathlib.absolute "/home/grb"
                 (pathlib.of_string "." </> store_file_name "Test" i))
       <$> [0; 1; 2]].
Proof.
  intros s.
  assert (Hflag : _is_processed s.1 = true) by (vm_compute; reflexivity).
  pose proof (proj1 (@save_bundles_every_record Sandbox _ _)
                "survey.h5" s.1 s.2 [] Hflag) as H.
  cbv zeta in H. destruct H as (_ & _ & _ & H).
  split; [vm_compute; reflexivity|].
  split; [vm_compute; reflexivity|].
  replace s with (s.1, s.2) by (by destruct s).
  rewrite H. vm_compute. reflexivity.
Defined.

Lemma wrapper_runs_one_grb_witness :
  let ps := {| _parameters := {[ "name" := VStr "Test_0" ]};
               _file_path := Some (pathlib.of_string "Test_0_store.h5") |} in
  (GRBWrapper_new ps true (sandbox [] three_records)).1 = inr tt /\
  (GRBWrapper_new ps true (sandbox [] three_records)).2.1 = None.
Proof.
  intros ps.
  pose proof (proj1 (proj2 (wrapper_runs_one_grb ps true
                              (sandbox [] three_records)))
                5 (sandbox [] three_records) (sandbox [] three_records)
                (sb_add_file (pathlib.of_string "Test_0_store.h5")
                   (sandbox [] three_records))
                eq_refl eq_refl eq_refl) as H.
  cbv zeta in H. by rewrite H.
Defined.

(** * Further properties *)

(** ** The registry: what is built, and what no call changes *)

Section RegistryMore.
Context {drm : Type} {D : DRMGen drm}.
Variable gbm_orbit_T0 : float.
Variable get_path_of_data_file : string -> string.

Local Abbreviation registry_init :=
  (ResponseGenerator_init gbm_orbit_T0 get_path_of_data_file).
Local Abbreviation init_one :=
  (init_detector gbm_orbit_T0 get_path_of_data_file).
Local Abbreviation model := (model_of gbm_orbit_T0 get_path_of_data_file).
Local Abbreviation run_ops := (run gbm_orbit_T0 get_path_of_data_file).
Local Abbreviation exec_op := (exec gbm_orbit_T0 get_path_of_data_file).

Lemma assoc_lookup_elem {V} (k : string) (d : list (string * V)) :
  is_Some (assoc_lookup k d) <-> k ∈ d.*1.
Proof.
  induction d as [|[k' v] d IH]; simpl.
  - split; [intros [? ?]; discriminate | intros H; by apply not_elem_of_nil in H].
  - destruct (String.eqb_spec k k') as [->|Hne].
    + split; [intros _; by left | eauto].
    + rewrite IH. split; [by right|].
      intros Hin. apply elem_of_cons in Hin as [?|?]; [congruence | done].
Qed.

(** One turn of the loop of [__init__] for a key of the table. *)
Lemma init_one_run k v (g : @ResponseGenerator drm) name :
  assoc_lookup k _det_translate = Some name ->
  let d := DRMGenTTE name 1%Q gbm_orbit_T0
             (get_path_of_data_file (os_path_join "gbm_cspec" (k +:+ ".pha")))
             (get_path_of_data_file "posthist.fit") 2%Z false in
  exists g1,
    init_one (k, v) g = (inr tt, g1) /\
    _detectors g1 = <[k := d]> (_detectors g) /\
    _mc_energies g1 = <[k := drm_monte_carlo_energies d]> (_mc_energies g) /\
    _ebounds g1 = <[k := drm_ebounds d]> (_ebounds g).
Proof.
  intros Hname d. unfold init_detector, getitem, bind, modify.
  cbn [fst]. rewrite Hname. eexists. split; [reflexivity|]. by repeat split.
Qed.

(** The loop of [__init__] over any part of the table. *)
Lemma init_loop (l : list (string * string)) (g : @ResponseGenerator drm) :
  (forall kv, kv ∈ l -> is_Some (assoc_lookup kv.1 _det_translate)) ->
  exists g',
    for_each l init_one g = (inr tt, g') /\
    forall k,
      (k ∈ l.*1 ->
       _detectors g' !! k = model k /\
       _mc_energies g' !! k = drm_monte_carlo_energies <$> model k /\
       _ebounds g' !! k = drm_ebounds <$> model k) /\
      (k ∉ l.*1 ->
       _detectors g' !! k = _detectors g !! k /\
       _mc_energies g' !! k = _mc_energies g !! k /\
       _ebounds g' !! k = _ebounds g !! k).
Proof.
  revert g. induction l as [|[k0 v0] l IH]; intros g Hl.
  - exists g. split; [reflexivity|]. intros k. split; [|done].
    intros Hin. by apply not_elem_of_nil in Hin.
  - assert (Hsome : is_Some (assoc_lookup k0 _det_translate))
      by exact (Hl (k0, v0) ltac:(by left)).
    destruct Hsome as [name Hname].
    assert (Hm : model k0 = Some (DRMGenTTE name 1%Q gbm_orbit_T0
              (get_path_of_data_file
                 (os_path_join "gbm_cspec" (k0 +:+ ".pha")))
              (get_path_of_data_file "posthist.fit") 2%Z false)).
    { unfold model_of. by rewrite Hname. }
    destruct (init_one_run k0 v0 g name Hname) as (g1 & H1 & Hd & Hmc & Heb).
    destruct (IH g1 (fun kv Hkv => Hl kv ltac:(by right)))
      as (g' & Hrun & Hlook).
    exists g'. split.
    { simpl for_each. unfold bind at 1. by rewrite H1. }
    assert (Hg1 : forall k,
      (k = k0 ->
       _detectors g1 !! k = model k /\
       _mc_energies g1 !! k = drm_monte_carlo_energies <$> model k /\
       _ebounds g1 !! k = drm_ebounds <$> model k) /\
      (k <> k0 ->
       _detectors g1 !! k = _detectors g !! k /\
       _mc_energies g1 !! k = _mc_energies g !! k /\
       _ebounds g1 !! k = _ebounds g !! k)).
    { intros k. rewrite Hd, Hmc, Heb. split.
      - intros ->. rewrite !lookup_insert_eq, Hm. done.
      - intros Hne. by rewrite !lookup_insert_ne. }
    intros k. destruct (Hlook k) as [Hin Hout].
    destruct (decide (k ∈ l.*1)) as [Hk|Hk].
    + split; [intros _; by apply Hin|].
      intros Hnot. exfalso. apply Hnot. simpl. by right.
    + destruct (Hout Hk) as (-> & -> & ->).
      destruct (Hg1 k) as [Heq Hne]. split.
      * intros Hin'. simpl in Hin'. apply elem_of_cons in Hin' as [->|?];
          [by apply Heq | done].
      * intros Hnot. apply Hne. intros ->. apply Hnot. simpl. by left.
Qed.

(** X1.  [__init__] registers exactly the keys of [_det_translate]:
    under each it stores the model built from the translated detector
    name, [time=1], the orbit's [T0], that detector's [.pha] file, the
    shared position history, [mat_type=2] and [occult=False], and the
    two energy tables hold, under the same keys, the energies of those
    very models.  Any other key is absent from all three. *)
Theorem registry_init_contents (k : string) :
  let g := (registry_init blank).2 in
  (registry_init blank).1 = inr tt /\
  _detectors g !! k = model k /\
  _mc_energies g !! k = drm_monte_carlo_energies <$> _detectors g !! k /\
  _ebounds g !! k = drm_ebounds <$> _detectors g !! k /\
  (is_Some (_detectors g !! k) <-> k ∈ _det_translate.*1).
Proof.
  intros g.
  destruct (init_loop _det_translate blank) as (g' & Hrun & Hlook).
  { intros kv Hkv. apply assoc_lookup_elem. change kv.1 with (fst kv). by apply list_elem_of_fmap_2. }
  assert (Hg : g = g').
  { subst g. unfold ResponseGenerator_init, bind, put. by rewrite Hrun. }
  assert (Hr : (registry_init blank).1 = inr tt).
  { unfold ResponseGenerator_init, bind, put. by rewrite Hrun. }
  rewrite Hg. split; [exact Hr|].
  destruct (Hlook k) as [Hin Hout].
  destruct (decide (k ∈ _det_translate.*1)) as [Hk|Hk].
  - destruct (Hin Hk) as (H1 & H2 & H3). rewrite H1, H2, H3.
    repeat split; try done.
    apply assoc_lookup_elem in Hk as [name Hname].
    unfold model_of. rewrite Hname. eauto.
  - destruct (Hout Hk) as (H1 & H2 & H3). rewrite H1, H2, H3.
    assert (Hnone : model k = None).
    { unfold model_of.
      destruct (assoc_lookup k _det_translate) eqn:Hl; [|done].
      exfalso. apply Hk, assoc_lookup_elem. eauto. }
    rewrite Hnone. repeat split; try done.
    intros [? ?]. discriminate.
Qed.

Lemma same_layout_refl (g : @ResponseGenerator drm) : same_layout g g.
Proof. by repeat split. Qed.

Lemma same_layout_trans (g1 g2 g3 : @ResponseGenerator drm) :
  same_layout g1 g2 -> same_layout g2 g3 -> same_layout g1 g3.
Proof.
  intros (H1 & H2 & H3) (H4 & H5 & H6). repeat split; congruence.
Qed.

Lemma keeps_layout_bind {A B} (c : @Method drm A) (k : A -> @Method drm B) :
  keeps_layout c -> (forall a, keeps_layout (k a)) -> keeps_layout (bind c k).
Proof.
  intros Hc Hk self. unfold bind. specialize (Hc self).
  destruct (c self) as [[e|a] s1]; simpl in *; [exact Hc|].
  eapply same_layout_trans; [apply Hk | exact Hc].
Qed.

Lemma keeps_layout_get : keeps_layout (get (S := @ResponseGenerator drm)).
Proof. intros self. apply same_layout_refl. Qed.

Lemma keeps_layout_assert cond msg :
  keeps_layout (py_assert (S := @ResponseGenerator drm) cond msg).
Proof. intros self. destruct cond; apply same_layout_refl. Qed.

Lemma keeps_layout_call_detector det_name (m : drm -> drm) :
  keeps_layout (call_detector det_name m).
Proof.
  intros self. unfold call_detector, bind, get.
  destruct (_detectors self !! det_name) as [d|] eqn:Hd;
    [|apply same_layout_refl].
  repeat split. simpl. rewrite dom_insert_L.
  apply elem_of_dom_2 in Hd. set_solver.
Qed.

Lemma keeps_layout_matrix det_name :
  keeps_layout (detector_matrix_T (drm := drm) det_name).
Proof.
  intros self. unfold detector_matrix_T, bind, get.
  destruct (_detectors self !! det_name); apply same_layout_refl.
Qed.

Lemma keeps_layout_generate_response ra dec time det_name :
  keeps_layout (generate_response (drm := drm) ra dec time det_name).
Proof.
  unfold generate_response.
  apply keeps_layout_bind; [apply keeps_layout_get|]. intros self.
  apply keeps_layout_bind; [apply keeps_layout_assert|]. intros _.
  apply keeps_layout_bind; [apply keeps_layout_call_detector|]. intros _.
  apply keeps_layout_bind; [apply keeps_layout_get|]. intros self1.
  apply keeps_layout_bind; [apply keeps_layout_assert|]. intros _.
  apply keeps_layout_bind; [apply keeps_layout_call_detector|]. intros _.
  apply keeps_layout_matrix.
Qed.

Lemma keeps_layout_set_time time det_name :
  keeps_layout (set_time (drm := drm) time det_name).
Proof.
  unfold set_time.
  apply keeps_layout_bind; [apply keeps_layout_get|]. intros self.
  apply keeps_layout_bind; [apply keeps_layout_assert|]. intros _.
  apply keeps_layout_call_detector.
Qed.

Lemma keeps_layout_set_location ra dec det_name :
  keeps_layout (set_location (drm := drm) ra dec det_name).
Proof.
  unfold set_location.
  apply keeps_layout_bind; [apply keeps_layout_get|]. intros self.
  apply keeps_layout_bind; [apply keeps_layout_assert|]. intros _.
  apply keeps_layout_bind; [apply keeps_layout_call_detector|]. intros _.
  apply keeps_layout_matrix.
Qed.

Lemma on_instance_layout {A} r (m : @Method drm A) p g0 :
  keeps_layout m ->
  (exists g, heap p !! 0 = Some g /\ same_layout g g0) ->
  exists g, heap (on_instance r m p).2 !! 0 = Some g /\ same_layout g g0.
Proof.
  intros Hm (g & Hg & Hlay). unfold on_instance.
  destruct (heap p !! r) as [gr|] eqn:Hr; [|by exists g].
  specialize (Hm gr). destruct (m gr) as [res g']. simpl in *.
  destruct r as [|r].
  - exists g'. split.
    + apply list_lookup_insert_eq. by apply lookup_lt_Some in Hr.
    + rewrite Hg in Hr. injection Hr as <-.
      eapply same_layout_trans; [exact Hm | exact Hlay].
  - exists g. split; [|exact Hlay]. by rewrite list_lookup_insert_ne.
Qed.

(** X2.  After the import, whatever requests and method calls follow,
    succeeding or failing, the registry at the address the import
    returned still has the detectors it was built with, no more and no
    fewer, and its two energy tables are the ones built: the methods
    replace models under existing keys and do nothing else. *)
Theorem registry_layout_is_fixed (ops : list Op) :
  exists g,
    heap (run_ops ops) !! 0 = Some g /\
    same_layout g (registry_init blank).2.
Proof.
  unfold run. induction ops as [|op ops IH] using rev_ind.
  - rewrite import_state. simpl. eexists. split; [reflexivity|].
    apply same_layout_refl.
  - rewrite foldl_app. simpl.
    destruct (run_invariant gbm_orbit_T0 get_path_of_data_file ops)
      as [Hinst _]. unfold run in Hinst.
    destruct op; simpl.
    + by rewrite (request_when_set _ _ _ _ Hinst).
    + apply on_instance_layout;
        [apply keeps_layout_generate_response | exact IH].
    + apply on_instance_layout; [apply keeps_layout_set_time | exact IH].
    + apply on_instance_layout; [apply keeps_layout_set_location | exact IH].
Qed.

(** X3.  On a registered detector [set_time] replaces that detector's
    model by the model with the new time and returns nothing, and
    [set_location] replaces it by the model with the new pointing and
    returns its matrix transposed; neither touches another detector or
    the energy tables, and [set_location] does not reset the time that
    was set before. *)
Theorem setters_on_registered
    (self : @ResponseGenerator drm) (ra dec time : float) det_name d :
  _detectors self !! det_name = Some d ->
  set_time time det_name self
  = (inr tt, {| _detectors := <[det_name := drm_set_time time d]>
                                (_detectors self);
                _mc_energies := _mc_energies self;
                _ebounds := _ebounds self |}) /\
  set_location ra dec det_name self
  = (inr (T (drm_matrix (drm_set_location ra dec d))),
     {| _detectors := <[det_name := drm_set_location ra dec d]>
                        (_detectors self);
        _mc_energies := _mc_energies self;
        _ebounds := _ebounds self |}).
Proof.
  intros Hd. split.
  - unfold set_time. unfold bind at 1, get at 1.
    rewrite (assert_registered _ _ _ _ Hd).
    by rewrite (call_detector_registered _ _ _ _ Hd).
  - unfold set_location. unfold bind at 1, get at 1.
    rewrite (assert_registered _ _ _ _ Hd).
    erewrite bind_inr by apply (call_detector_registered _ _ _ _ Hd).
    unfold detector_matrix_T, bind, get. simpl.
    rewrite lookup_insert_eq. reflexivity.
Qed.

End RegistryMore.

(** ** Parameter servers and local parameters *)

Lemma map_fold_insert_union (kwargs parameters : gmap string Value) :
  map_fold (fun k v (p : gmap string Value) => <[k := v]> p)
           parameters kwargs
  = kwargs ∪ parameters.
Proof.
  apply (map_fold_weak_ind
           (fun r (m : gmap string Value) => r = m ∪ parameters)).
  - by rewrite (left_id_L ∅ (∪)).
  - intros k v m r _ ->. by rewrite insert_union_l.
Qed.

(** X4.  A server built from the keywords [kw] keeps every one of them, the
    six named ones and any further one, each under its own key, and
    starts without a file path; if one of the six named parameters is
    missing the call fails with [TypeError].  [set_file_path] records
    the path and leaves the parameters alone. *)
Theorem parameter_server_keeps_keywords {S} (kw : gmap string Value) (s : S) :
  (Forall (fun k => is_Some (kw !! k)) required_keywords ->
   ParameterServer_init kw s
   = (inr {| _parameters := kw; _file_path := None |}, s)) /\
  (Exists (fun k => kw !! k = None) required_keywords ->
   ParameterServer_init kw s = (inl TypeError, s)) /\
  (forall ps file_path,
     ParameterServer_init kw s = (inr ps, s) ->
     _parameters (set_file_path file_path ps) = kw /\
     _file_path (set_file_path file_path ps) = Some file_path).
Proof.
  assert (Hall : Forall (fun k => is_Some (kw !! k)) required_keywords ->
            ParameterServer_init kw s
            = (inr {| _parameters := kw; _file_path := None |}, s)).
  { intros Hreq. unfold required_keywords in Hreq.
    repeat match goal with
           | H : Forall _ (_ :: _) |- _ =>
               apply Forall_cons in H as [[? ?] ?]
           end.
    unfold ParameterServer_init.
    repeat match goal with H : kw !! _ = Some _ |- _ => rewrite H end.
    rewrite map_fold_insert_union.
    match goal with
    | |- ret {| _parameters := ?m; _file_path := None |} s = _ =>
        replace m with kw; [reflexivity|]
    end.
    apply map_eq. intros k. rewrite lookup_union.
    destruct (decide (k = "T0")) as [->|];
      [by simplify_map_eq|].
    destruct (decide (k = "duration")) as [->|];
      [by simplify_map_eq|].
    destruct (decide (k = "z")) as [->|]; [by simplify_map_eq|].
    destruct (decide (k = "dec")) as [->|]; [by simplify_map_eq|].
    destruct (decide (k = "ra")) as [->|]; [by simplify_map_eq|].
    destruct (decide (k = "name")) as [->|]; [by simplify_map_eq|].
    rewrite !lookup_delete_ne by done.
    rewrite !lookup_insert_ne by done. rewrite lookup_empty.
    by destruct (kw !! k). }
  assert (Hmiss : Exists (fun k => kw !! k = None) required_keywords ->
            ParameterServer_init kw s = (inl TypeError, s)).
  { intros Hex. unfold ParameterServer_init.
    destruct (kw !! "name") eqn:H1, (kw !! "ra") eqn:H2,
      (kw !! "dec") eqn:H3, (kw !! "z") eqn:H4,
      (kw !! "duration") eqn:H5, (kw !! "T0") eqn:H6; try reflexivity.
    exfalso. unfold required_keywords in Hex.
    repeat (apply Exists_cons in Hex as [Hex|Hex]; [congruence|]).
    by apply Exists_nil in Hex. }
  split; [exact Hall|]. split; [exact Hmiss|].
  intros ps file_path Hps.
  destruct (decide (Forall (fun k => is_Some (kw !! k)) required_keywords))
    as [Hreq|Hreq].
  - rewrite (Hall Hreq) in Hps. injection Hps as <-. by split.
  - apply not_Forall_Exists in Hreq; [|apply _].
    rewrite Hmiss in Hps; [discriminate|].
    eapply Exists_impl; [exact Hreq|]. simpl. intros k Hk.
    destruct (kw !! k); [|done]. exfalso. apply Hk. eauto.
Qed.

Section LocalParameters.
Context {Ext : Type} {C : Collaborators Ext} {U : UniverseSubclass Ext}.

Lemma with_local_parameters_cons i k v items (m : gmap string Value) :
  with_local_parameters i ((k, v) :: items) m =
    match v !! i with
    | Some x => with_local_parameters i items (<[k := x]> m)
    | None => None
    end.
Proof.
  unfold with_local_parameters. simpl.
  destruct (v !! i); [reflexivity|].
  induction items as [|kv items IH]; [reflexivity | exact IH].
Qed.

(** The loop over the local parameters computes
    [with_local_parameters] and raises [IndexError] where that has no
    value; it has no effect. *)
Lemma add_local_parameters_run i items (m : gmap string Value)
    (s : Universe * World Ext) :
  add_local_parameters i items m s =
    match with_local_parameters i items m with
    | Some m' => (inr m', s)
    | None => (inl IndexError, s)
    end.
Proof.
  revert m. induction items as [|[k v] items IH]; intros m; [reflexivity|].
  rewrite with_local_parameters_cons. simpl.
  unfold bind, index. destruct (v !! i) as [x|]; [|reflexivity].
  apply IH.
Qed.

Lemma with_local_parameters_lookup i items (m m' : gmap string Value) :
  with_local_parameters i items m = Some m' ->
  (forall k, k ∉ items.*1 -> m' !! k = m !! k) /\
  (forall front k v rest,
     items = front ++ (k, v) :: rest -> k ∉ rest.*1 -> m' !! k = v !! i) /\
  (forall k, is_Some (m !! k) -> is_Some (m' !! k)).
Proof.
  revert m. induction items as [|[k0 v0] items IH]; intros m Hrun.
  - injection Hrun as <-. repeat split; try done.
    intros front k v rest Heq. by destruct front.
  - rewrite with_local_parameters_cons in Hrun.
    destruct (v0 !! i) as [x|] eqn:Hx; [|discriminate].
    destruct (IH _ Hrun) as (Hout & Hin & Hkeep).
    split; [|split].
    + intros k Hk. rewrite Hout.
      * apply lookup_insert_ne. intros ->. apply Hk. simpl. by left.
      * intros Hk'. apply Hk. simpl. by right.
    + intros front k v rest Heq Hrest. destruct front as [|kv front].
      * injection Heq as -> -> ->. rewrite (Hout k Hrest).
        by rewrite lookup_insert_eq.
      * injection Heq as _ ->. by apply (Hin front k v rest).
    + intros k Hk. apply Hkeep.
      destruct (decide (k0 = k)) as [->|Hne].
      * rewrite lookup_insert_eq. eauto.
      * by rewrite lookup_insert_ne.
Qed.

Lemma record_param_dict_required (u : Universe) i kw :
  record_param_dict u i = Some kw ->
  Forall (fun k => is_Some (kw !! k)) required_keywords.
Proof.
  unfold record_param_dict.
  destruct (_z u !! i), (_ra u !! i), (_dec u !! i), (_name u !! i),
    (_duration u !! i); try discriminate.
  intros [= <-]. unfold required_keywords.
  repeat constructor; by (vm_compute; eauto).
Qed.

(** One turn of the construction loop of a Universe with local
    parameters, for a record all five columns reach. *)
Lemma construct_one_local (i : nat) (u : Universe) (w : World Ext) kw0 f :
  record_param_dict u i = Some kw0 ->
  record_file_name u i = Some f ->
  construct_one i (u, w) =
    match with_local_parameters i (_local_parameters u) kw0 with
    | Some kw =>
        let w' := {| ext := ext w;
                     log := log w ++ [Call_parameter_server_type kw;
                                      Call_exists f] |} in
        if Path_exists f (ext w) then
          (inr {| _parameters := kw; _file_path := None |}, (u, w'))
        else
          let ps := {| _parameters := kw; _file_path := Some f |} in
          (inr ps,
           (set_parameter_servers (_parameter_servers u ++ [ps]) u, w'))
    | None => (inl IndexError, (u, w))
    end.
Proof.
  intros Hkw Hf.
  pose proof (record_param_dict_required u i kw0 Hkw) as Hreq.
  unfold record_param_dict in Hkw. unfold record_file_name in Hf.
  unfold construct_one.
  unfold bind at 1, get_self at 1. cbn [fst].
  destruct (_z u !! i) as [z|] eqn:Hz; [|discriminate].
  unfold index at 1. rewrite Hz. unfold bind at 1, ret at 1.
  destruct (_ra u !! i) as [ra|] eqn:Hra; [|discriminate].
  unfold index at 1. rewrite Hra. unfold bind at 1, ret at 1.
  destruct (_dec u !! i) as [dec|] eqn:Hdec; [|discriminate].
  unfold index at 1. rewrite Hdec. unfold bind at 1, ret at 1.
  destruct (_name u !! i) as [name|] eqn:Hname; [|discriminate].
  unfold index at 1. rewrite Hname. unfold bind at 1, ret at 1.
  destruct (_duration u !! i) as [d|] eqn:Hd; [|discriminate].
  unfold index at 1. rewrite Hd. unfold bind at 1, ret at 1.
  injection Hkw as Hkw. injection Hf as Hf. rewrite Hkw.
  unfold bind at 1. rewrite add_local_parameters_run.
  destruct (with_local_parameters i (_local_parameters u) kw0)
    as [kw|] eqn:Hloc; [|reflexivity].
  destruct (with_local_parameters_lookup _ _ _ _ Hloc) as (_ & _ & Hkeep).
  assert (Hreq' : Forall (fun k => is_Some (kw !! k)) required_keywords).
  { eapply Forall_impl; [exact Hreq|]. intros k. apply Hkeep. }
  unfold bind at 1, in_world at 1, external at 1. cbn [fst snd ext log].
  rewrite (proj1 (parameter_server_keeps_keywords kw (ext w)) Hreq').
  unfold index at 1. rewrite Hname.
  unfold bind at 1, ret at 1.
  unfold bind at 1, get_ext at 1. cbn [fst snd ext log].
  unfold bind at 1, in_world at 1, external at 1, ret at 1.
  cbn [fst snd ext log]. rewrite Hf.
  rewrite <- app_assoc. cbn [app].
  destruct (Path_exists f (ext w)); reflexivity.
Qed.

(** X5.  In a Universe whose subclass filled [_local_parameters], the
    server of record [i] is built from the six standard keywords
    overlaid with the [i]-th entry of every local column: a local key
    wins over a standard key of the same name ([T0] included), the
    last column of a repeated key wins, and keys that are not local
    keep their standard value.  If a local column does not reach [i]
    the turn raises [IndexError] before any server is built. *)
Theorem local_parameters_override (i : nat) (u : Universe) (w : World Ext)
    kw0 f :
  record_param_dict u i = Some kw0 ->
  record_file_name u i = Some f ->
  let t := construct_one i (u, w) in
  match with_local_parameters i (_local_parameters u) kw0 with
  | Some kw =>
      (exists ps, t.1 = inr ps /\ _parameters ps = kw) /\
      log t.2.2 = log w ++ [Call_parameter_server_type kw; Call_exists f] /\
      (forall k, k ∉ (_local_parameters u).*1 -> kw !! k = kw0 !! k) /\
      (forall front k v rest,
         _local_parameters u = front ++ (k, v) :: rest ->
         k ∉ rest.*1 -> kw !! k = v !! i)
  | None =>
      t = (inl IndexError, (u, w)) /\
      Exists (fun kv => kv.2 !! i = None) (_local_parameters u)
  end.
Proof.
  intros Hkw Hf t. subst t. rewrite (construct_one_local i u w kw0 f Hkw Hf).
  destruct (with_local_parameters i (_local_parameters u) kw0)
    as [kw|] eqn:Hloc.
  - destruct (with_local_parameters_lookup _ _ _ _ Hloc) as (Hout & Hin & _).
    cbv zeta. split; [|split; [|split; assumption]].
    + destruct (Path_exists f (ext w)); eexists; by split.
    + by destruct (Path_exists f (ext w)).
  - split; [reflexivity|].
    clear Hkw. revert kw0 Hloc.
    induction (_local_parameters u) as [|[k v] items IH]; intros kw0 Hloc;
      [discriminate|].
    rewrite with_local_parameters_cons in Hloc.
    destruct (v !! i) as [x|] eqn:Hx.
    + apply Exists_cons_tl. by apply (IH (<[k := x]> kw0)).
    + by apply Exists_cons_hd.
Qed.

End LocalParameters.
